(** * Credential vault of the Discord wallet bot

    A shallow embedding of [SecurityManager] (the AES-GCM credential cipher
    and the fixed-window rate limiter), of [WalletManager] (the per-user
    wallet registry) and of the wallet configuration commands of
    [CommandManager], with the properties the specification states about
    them.

    Conventions of the embedding.
    - A JavaScript string is a [string]: the sequence of bytes of its UTF-8
      encoding, so that [Buffer.from(s, 'utf8')] is [list_byte_of_string].
      Its [length] property counts UTF-16 code units and is
      [JsString.length], not the number of bytes. Text with a lone
      surrogate has no UTF-8 encoding and is outside the embedding.
    - A [Buffer] is a [list byte].
    - A property that may be [undefined] is an [option]. The arguments of a
      method have the types that its signature gives them; an object that
      the code itself builds has what the code puts into it, also where
      that is [undefined] behind a property that the interface types as a
      string.
    - JavaScript numbers that hold counters and millisecond clocks are [Z].
    - A [Map<string, V>] is a [gmap string V]; an object stored in a map and
      mutated through the reference obtained from [get] is modelled by
      re-inserting the updated record under the same key.
    - An [async] method is run to completion before the next one starts. *)

From Stdlib Require Import ZArith Lia Strings.Byte Ascii String List.
From stdpp Require Import base option list gmap strings.

Local Open Scope string_scope.
Local Open Scope Z_scope.

(** ** Hexadecimal text, as [Buffer] reads and writes it *)

Module Hex.

(** The lower-case digit of a nibble, as [buf.toString('hex')] prints it. *)
Definition digit (n : N) : ascii :=
  if (n <? 10)%N then ascii_of_N (48 + n) else ascii_of_N (87 + n).

(** The value of a hexadecimal digit of either case. *)
Definition value (c : ascii) : option N :=
  let n := N_of_ascii c in
  if ((48 <=? n) && (n <=? 57))%N then Some (n - 48)%N
  else if ((97 <=? n) && (n <=? 102))%N then Some (n - 87)%N
  else if ((65 <=? n) && (n <=? 70))%N then Some (n - 55)%N
  else None.

Definition byte_of_nibbles (hi lo : N) : byte :=
  byte_of_ascii (ascii_of_N (16 * hi + lo)).

(** [buf.toString('hex')]: two digits per byte, high nibble first. *)
Fixpoint encode (buf : list byte) : string :=
  match buf with
  | [] => EmptyString
  | b :: rest =>
      let n := Byte.to_N b in
      String (digit (n / 16)) (String (digit (n mod 16)) (encode rest))
  end.

(** [Buffer.from(s, 'hex')]: digits are read in pairs, and decoding stops
    at the first pair that is not made of two hexadecimal digits; what
    follows, and an unpaired last character, are dropped. *)
Fixpoint decode (s : string) : list byte :=
  match s with
  | String c1 (String c2 rest) =>
      match value c1, value c2 with
      | Some hi, Some lo => byte_of_nibbles hi lo :: decode rest
      | _, _ => []
      end
  | _ => []
  end.

(** [/^[0-9a-fA-F]*$/] *)
Definition is_digit (c : ascii) : bool :=
  match value c with Some _ => true | None => false end.

End Hex.

(** ** The string operations of the runtime that the code calls *)

Module JsString.

(** Truthiness of a string: every string but the empty one. *)
Definition truthy (s : string) : bool :=
  match s with EmptyString => false | String _ _ => true end.

(** Truthiness of a possibly missing string ([undefined] is falsy). *)
Definition truthy_opt (o : option string) : bool :=
  match o with Some s => truthy s | None => false end.

(** [s.split(sep)] for a one-character separator: never the empty list,
    and the empty string splits into one empty component. *)
Fixpoint split (sep : ascii) (s : string) : list string :=
  match s with
  | EmptyString => [EmptyString]
  | String c rest =>
      if Ascii.eqb c sep then EmptyString :: split sep rest
      else match split sep rest with
           | first :: others => String c first :: others
           | [] => [String c EmptyString]
           end
  end.

(** [s.replace(pat, rep)] with a string pattern: only the first occurrence
    of [pat], wherever it stands in [s], is replaced. *)
Fixpoint replace (pat rep s : string) : string :=
  if String.prefix pat s
  then rep ++ String.substring (String.length pat)
                               (String.length s - String.length pat)%nat s
  else match s with
       | EmptyString => EmptyString
       | String c rest => String c (replace pat rep rest)
       end.

Fixpoint forallb (p : ascii -> bool) (s : string) : bool :=
  match s with
  | EmptyString => true
  | String c rest => p c && forallb p rest
  end.

(** The UTF-16 code units that a byte of UTF-8 text accounts for: one for a
    byte that starts a character of one, two or three bytes, two (a
    surrogate pair) for a byte that starts a character of four bytes, and
    none for a continuation byte. *)
Definition units (c : ascii) : nat :=
  let n := N_of_ascii c in
  if (n <? 128)%N then 1
  else if (n <? 192)%N then 0
  else if (n <? 240)%N then 1
  else 2.

(** [s.length] *)
Fixpoint length (s : string) : nat :=
  match s with
  | EmptyString => 0
  | String c rest => units c + length rest
  end.

End JsString.

(** ** Errors, the logger and the runtime the services run on *)

(** A thrown [Error]: the code only ever looks at, or builds, its message. *)
Record JsError := mkError { message : string }.

(** The result of running a piece of code that may throw. *)
Inductive outcome (A : Type) : Type :=
| Ok (a : A)
| Throw (e : JsError).
Arguments Ok {A} a.
Arguments Throw {A} e.

Inductive LogLevel := info | warn | error.

(** One call of [logger.info] or [logger.error]: the text and, when the call
    passes one, the error object printed after it. *)
Record LogEntry := mkLog {
  level : LogLevel;
  text : string;
  cause : option JsError
}.

Inductive WalletType := evm | solana | cosmos | fuel | radix.

(** [types/wallet.ts]: an optional property is an [option]. *)
Record WalletProvider := mkWalletProvider {
  type : WalletType;
  privateKey : string;
  rpcUrl : string;
  crossmintApiKey : option string;
  address : option string;
  chainId : option Z
}.

(** A property of an object of type [Partial<T>]: the object may lack it,
    or have it, and then its value may be [undefined]: the compiler takes
    [{ privateKey: undefined }] for a [Partial<WalletProvider>]. A spread
    copies a property that is there, whatever its value. *)
Inductive Property (A : Type) : Type :=
| Absent
| Present (value : option A).
Arguments Absent {A}.
Arguments Present {A} value.

(** [Partial<WalletProvider>] *)
Record WalletUpdates := mkWalletUpdates {
  new_type : Property WalletType;
  new_privateKey : Property string;
  new_rpcUrl : Property string;
  new_crossmintApiKey : Property string;
  new_address : Property string;
  new_chainId : Property Z
}.

(** The object that a record of the registry holds under [walletProvider],
    and the copy of it that [getWallet] returns. The compiler takes both
    for a [WalletProvider]; but [updateWallet] replaces the stored object by
    the spread of a [Partial<WalletProvider>] over it, so that each of its
    properties, the three that the interface requires included, may be
    [undefined]. *)
Record StoredProvider := mkStoredProvider {
  stored_type : option WalletType;
  stored_privateKey : option string;
  stored_rpcUrl : option string;
  stored_crossmintApiKey : option string;
  stored_address : option string;
  stored_chainId : option Z
}.

Record UserWallet := mkUserWallet {
  userId : string;
  walletProvider : StoredProvider;
  isActive : bool;
  createdAt : Z;
  lastUsed : Z
}.

(** [GoatToolsOptions] *)
Record GoatToolsOptions := mkGoatToolsOptions {
  goat_walletProvider : WalletProvider;
  plugins : list string
}.

(** What the services take from outside this repository: Node's [crypto]
    module (as the cipher code calls it), the system clock, [ethers.Wallet],
    the configured encryption key, and the tool layer behind
    [GoatService.initializeTools], whose two versions in the repository both
    log and rethrow whatever the SDK they call throws.

    [Env] is the state of the outside world that the calls read and advance:
    the entropy pool behind [crypto.randomBytes] and the clock behind
    [new Date()].

    [gcmSeal key iv aad plaintext] stands for the sequence
    [createCipherGCM(algorithm, key, iv)], [setAAD], [update], [final],
    [getAuthTag] and yields ciphertext and tag; [gcmOpen key iv aad tag
    ciphertext] stands for [createDecipherGCM], [setAAD], [setAuthTag],
    [update], [final]. Either may throw. *)
Class Runtime := {
  Env : Type;
  randomBytes : nat -> Env -> list byte * Env;
  newDate : Env -> Z * Env;
  encryptionKey : string;
  scryptSync : string -> string -> nat -> list byte;
  gcmSeal : list byte -> list byte -> list byte -> list byte ->
            outcome (list byte * list byte);
  gcmOpen : list byte -> list byte -> list byte -> list byte -> list byte ->
            outcome (list byte);
  ethersWalletAddress : string -> outcome string;
  goatInitializeTools : GoatToolsOptions -> list LogEntry * outcome unit
}.

(** What [crypto.randomBytes] guarantees: the requested number of bytes. *)
Class RuntimeLaws (R : Runtime) : Prop := {
  randomBytes_length : forall n env, length (randomBytes n env).1 = n
}.

(** What Node's [crypto] module does with the two cipher calls of the code.
    The module has [createCipheriv] and [createDecipheriv], which take
    ['aes-256-gcm'] for an algorithm; it has no [createCipherGCM] and no
    [createDecipherGCM]. The expressions [crypto.createCipherGCM(...)] and
    [crypto.createDecipherGCM(...)] of [SecurityManager.ts] therefore call
    [undefined] and throw a [TypeError], with whatever arguments, before a
    cipher exists. *)
Class NodeCrypto (R : Runtime) : Prop := {
  createCipherGCM_undefined : forall key iv aad plain,
      exists e, gcmSeal key iv aad plain = Throw e;
  createDecipherGCM_undefined : forall key iv aad tag encrypted,
      exists e, gcmOpen key iv aad tag encrypted = Throw e
}.

(** ** Code that logs, throws and changes the registry *)

Section Monad.
Context {R : Runtime}.

(** Everything a method of the two services can read or change. *)
Record World := mkWorld {
  env : Env;
  logs : list LogEntry;
  wallets : gmap string UserWallet
}.

Definition M (A : Type) : Type := World -> outcome A * World.

Definition ret {A} (a : A) : M A := fun w => (Ok a, w).

Definition bind {A B} (m : M A) (k : A -> M B) : M B :=
  fun w => match m w with
           | (Ok a, w') => k a w'
           | (Throw e, w') => (Throw e, w')
           end.

Definition throw {A} (e : JsError) : M A := fun w => (Throw e, w).

(** [try { body } catch (e) { handler(e) }]: what [body] did to the world
    before it threw stays done. *)
Definition try_catch {A} (body : M A) (handler : JsError -> M A) : M A :=
  fun w => match body w with
           | (Ok a, w') => (Ok a, w')
           | (Throw e, w') => handler e w'
           end.

Definition lift {A} (o : outcome A) : M A := fun w => (o, w).

Definition with_env {A} (f : Env -> A * Env) : M A :=
  fun w => let '(a, env') := f (env w) in
           (Ok a, mkWorld env' (logs w) (wallets w)).

Definition log (entries : list LogEntry) : M unit :=
  fun w => (Ok tt, mkWorld (env w) (logs w ++ entries) (wallets w)).

Definition logger_info (msg : string) : M unit :=
  log [mkLog info msg None].

Definition logger_error (msg : string) (e : JsError) : M unit :=
  log [mkLog error msg (Some e)].

Definition get_wallets : M (gmap string UserWallet) :=
  fun w => (Ok (wallets w), w).

Definition put_wallets (m : gmap string UserWallet) : M unit :=
  fun w => (Ok tt, mkWorld (env w) (logs w) m).

End Monad.

Notation "'let!' x := m 'in' k" := (bind m (fun x => k))
  (at level 10, x name, m at level 100, k at level 200,
   format "'[v' 'let!'  x  :=  m  'in' '/' k ']'").
Notation "m ;; k" := (bind m (fun _ => k))
  (at level 100, k at level 200, right associativity).

(** ** [services/SecurityManager.ts] *)

Module SecurityManager.

Definition keyLength : nat := 32.
Definition ivLength : nat := 16.

(** [Buffer.from('crossmint-discord-bot')] *)
Definition aad : list byte := list_byte_of_string "crossmint-discord-bot".

(** The key both methods derive: [scryptSync(encryptionKey, 'salt', 32)]. *)
Definition derivedKey {R : Runtime} : list byte :=
  scryptSync encryptionKey "salt" keyLength.

(** The three components joined by colons. *)
Definition blob (iv tag encrypted : list byte) : string :=
  Hex.encode iv ++ ":" ++ Hex.encode tag ++ ":" ++ Hex.encode encrypted.

Section Cipher.
Context {R : Runtime}.

Definition encrypt (text : string) : M string :=
  try_catch
    (let key := derivedKey in
     let! iv := with_env (randomBytes ivLength) in
     let! sealed := lift (gcmSeal key iv aad (list_byte_of_string text)) in
     let '(encrypted, tag) := sealed in
     ret (blob iv tag encrypted))
    (fun e =>
       logger_error "Encryption failed:" e ;;
       throw (mkError "Failed to encrypt data")).

(** The destructuring [const [ivHex, tagHex, encrypted] = parts] reads the
    first three components, [undefined] when there are fewer, and
    ignores the others. [decipher.update(encrypted, 'hex', 'utf8')] reads
    its hexadecimal input as [Buffer.from(encrypted, 'hex')] does. *)
Definition decrypt (encryptedData : string) : M string :=
  try_catch
    (let parts := JsString.split ":" encryptedData in
     let ivHex := parts !! 0%nat in
     let tagHex := parts !! 1%nat in
     let encrypted := parts !! 2%nat in
     if negb (JsString.truthy_opt ivHex) || negb (JsString.truthy_opt tagHex)
        || negb (JsString.truthy_opt encrypted)
     then throw (mkError "Invalid encrypted data format")
     else
       let key := derivedKey in
       let iv := Hex.decode (default EmptyString ivHex) in
       let tag := Hex.decode (default EmptyString tagHex) in
       let! decrypted :=
         lift (gcmOpen key iv aad tag (Hex.decode (default EmptyString encrypted))) in
       ret (string_of_list_byte decrypted))
    (fun e =>
       logger_error "Decryption failed:" e ;;
       throw (mkError "Failed to decrypt data")).

(** [decrypt(value)] for a value read from a stored object, which may be
    [undefined]: then [encryptedData.split] throws a [TypeError], inside the
    [try] of [decrypt]. *)
Definition decrypt_value (value : option string) : M string :=
  match value with
  | Some encryptedData => decrypt encryptedData
  | None =>
      logger_error "Decryption failed:"
        (mkError "Cannot read properties of undefined (reading 'split')") ;;
      throw (mkError "Failed to decrypt data")
  end.

End Cipher.

(** [validateWalletAddress] is not modelled: no property below reads it. *)

(** *** The rate limiter *)

Record RateLimit := mkRateLimit { count : Z; resetTime : Z }.

(** [checkRateLimit(userId, limit, windowMs)], with [now] the value that
    [Date.now()] returns in the call. The result is the admission and the
    [rateLimitMap] after the call. *)
Definition checkRateLimit (now : Z) (userId : string) (limit windowMs : Z)
    (rateLimitMap : gmap string RateLimit) : bool * gmap string RateLimit :=
  match rateLimitMap !! userId with
  | Some userLimit =>
      if now >? resetTime userLimit then
        (true, <[userId := mkRateLimit 1 (now + windowMs)]> rateLimitMap)
      else if count userLimit >=? limit then
        (false, rateLimitMap)
      else
        (true, <[userId := mkRateLimit (count userLimit + 1)
                                       (resetTime userLimit)]> rateLimitMap)
  | None =>
      (true, <[userId := mkRateLimit 1 (now + windowMs)]> rateLimitMap)
  end.

(** [cleanupRateLimits()], with [now] the value of its [Date.now()]: the
    loop deletes each entry with [now > data.resetTime] and keeps the
    others. *)
Definition cleanupRateLimits (now : Z)
    (rateLimitMap : gmap string RateLimit) : gmap string RateLimit :=
  filter (fun entry => ~ (now > resetTime entry.2)) rateLimitMap.

(** A caller making one [checkRateLimit] call after the other; each call
    is the time of the call, the user, the limit and the window. *)
Fixpoint checkRateLimits (calls : list (Z * string * Z * Z))
    (rateLimitMap : gmap string RateLimit)
    : list bool * gmap string RateLimit :=
  match calls with
  | [] => ([], rateLimitMap)
  | (now, userId, limit, windowMs) :: rest =>
      let '(admitted, next) :=
        checkRateLimit now userId limit windowMs rateLimitMap in
      let '(results, final) := checkRateLimits rest next in
      (admitted :: results, final)
  end.

End SecurityManager.

(** ** [services/WalletManager.ts] *)

Module WalletManager.
Import SecurityManager.

(** How a template literal prints a possibly [undefined] string. *)
Definition show (o : option string) : string := default "undefined" o.

(** One property of [{ ...stored, ...updates }]: that of [updates] when
    [updates] has the property, whatever its value, and the stored one
    otherwise. *)
Definition spread {A} (stored : option A) (update : Property A) : option A :=
  match update with
  | Present value => value
  | Absent => stored
  end.

(** [{ ...userWallet.walletProvider, ...updates }] *)
Definition merge (provider : StoredProvider) (updates : WalletUpdates)
    : StoredProvider :=
  {| stored_type := spread (stored_type provider) (new_type updates);
     stored_privateKey :=
       spread (stored_privateKey provider) (new_privateKey updates);
     stored_rpcUrl := spread (stored_rpcUrl provider) (new_rpcUrl updates);
     stored_crossmintApiKey :=
       spread (stored_crossmintApiKey provider) (new_crossmintApiKey updates);
     stored_address := spread (stored_address provider) (new_address updates);
     stored_chainId :=
       spread (stored_chainId provider) (new_chainId updates) |}.

(** [/^[0-9a-fA-F]{64}$/.test(provider.privateKey.replace('0x', ''))] *)
Definition validateEvmWallet (provider : WalletProvider) : bool :=
  let key := JsString.replace "0x" EmptyString (privateKey provider) in
  Nat.eqb (String.length key) 64 && JsString.forallb Hex.is_digit key.

(** [provider.privateKey.length >= 32] *)
Definition validateSolanaWallet (provider : WalletProvider) : bool :=
  Nat.leb 32 (JsString.length (privateKey provider)).

(** [provider.type] is one of the five literals of its type, each of them
    truthy, so [!provider.type] is false. Nothing in the body throws. *)
Definition validateWalletProvider (provider : WalletProvider) : bool :=
  if negb (JsString.truthy (privateKey provider))
     || negb (JsString.truthy (rpcUrl provider))
  then false
  else match type provider with
       | evm => validateEvmWallet provider
       | solana => validateSolanaWallet provider
       | _ => false
       end.

(** [hasWallet]: [userWallet?.isActive ?? false] *)
Definition hasWallet (userId : string) (store : gmap string UserWallet)
    : bool :=
  match store !! userId with
  | Some userWallet => isActive userWallet
  | None => false
  end.

Section Registry.
Context {R : Runtime}.

(** The statements of [registerWallet] that come before
    [this.wallets.set]: the address, the two encryptions, and the record
    built from them. *)
Definition registerWallet_record (userId : string)
    (provider : WalletProvider) : M UserWallet :=
  let! walletAddress :=
    (if match type provider with evm => true | _ => false end
        && negb (JsString.truthy_opt (address provider))
     then
       let! derived := lift (ethersWalletAddress (privateKey provider)) in
       logger_info ("Derived wallet address: " ++ derived) ;;
       ret (Some derived)
     else ret (address provider)) in
  let! encryptedPrivateKey := encrypt (privateKey provider) in
  let! encryptedCrossmintKey :=
    (match crossmintApiKey provider with
     | Some k =>
         if JsString.truthy k
         then let! c := encrypt k in ret (Some c)
         else ret None
     | None => ret None
     end) in
  let completeWalletProvider :=
    {| stored_type := Some (type provider);
       stored_privateKey := Some encryptedPrivateKey;
       stored_rpcUrl := Some (rpcUrl provider);
       stored_crossmintApiKey := encryptedCrossmintKey;
       stored_address := walletAddress;
       stored_chainId := chainId provider |} in
  let! created := with_env newDate in
  let! used := with_env newDate in
  ret {| userId := userId;
         walletProvider := completeWalletProvider;
         isActive := true;
         createdAt := created;
         lastUsed := used |}.

(** The options [registerWallet] hands to the tool layer: the provider as
    the caller gave it, with the address filled in. *)
Definition goatOptions (provider : WalletProvider)
    (walletAddress : option string) : GoatToolsOptions :=
  {| goat_walletProvider :=
       {| type := type provider;
          privateKey := privateKey provider;
          rpcUrl := rpcUrl provider;
          crossmintApiKey := crossmintApiKey provider;
          address := walletAddress;
          chainId := chainId provider |};
     plugins := ["erc20"; "uniswap"; "crossmint"] |}.

(** [this.goatService.initializeTools(options)] *)
Definition initializeTools (options : GoatToolsOptions) : M unit :=
  let '(entries, result) := goatInitializeTools options in
  log entries ;; lift result.

Definition registerWallet (user : string) (provider : WalletProvider)
    : M bool :=
  try_catch
    (let! userWallet := registerWallet_record user provider in
     let walletAddress := stored_address (walletProvider userWallet) in
     let! store := get_wallets in
     put_wallets (<[user := userWallet]> store) ;;
     try_catch
       (initializeTools (goatOptions provider walletAddress) ;;
        logger_info ("GOAT tools initialized for user " ++ user))
       (fun goatError =>
          logger_error
            ("Failed to initialize GOAT tools for user " ++ user ++ ":")
            goatError) ;;
     logger_info ("Wallet registered for user " ++ user
                  ++ " with address " ++ show walletAddress) ;;
     ret true)
    (fun e =>
       logger_error ("Failed to register wallet for user " ++ user ++ ":") e ;;
       ret false).

Definition getWallet (user : string) : M (option StoredProvider) :=
  try_catch
    (let! store := get_wallets in
     match store !! user with
     | Some userWallet =>
         if negb (isActive userWallet) then ret None
         else
           let stored := walletProvider userWallet in
           let! decryptedPrivateKey :=
             decrypt_value (stored_privateKey stored) in
           let! decryptedCrossmintKey :=
             (match stored_crossmintApiKey stored with
              | Some k =>
                  if JsString.truthy k
                  then let! c := decrypt k in ret (Some c)
                  else ret None
              | None => ret None
              end) in
           let! used := with_env newDate in
           put_wallets
             (<[user := {| userId := userId userWallet;
                           walletProvider := stored;
                           isActive := isActive userWallet;
                           createdAt := createdAt userWallet;
                           lastUsed := used |}]> store) ;;
           ret (Some {| stored_type := stored_type stored;
                        stored_privateKey := Some decryptedPrivateKey;
                        stored_rpcUrl := stored_rpcUrl stored;
                        stored_crossmintApiKey := decryptedCrossmintKey;
                        stored_address := stored_address stored;
                        stored_chainId := stored_chainId stored |})
     | None => ret None
     end)
    (fun e =>
       logger_error ("Failed to get wallet for user " ++ user ++ ":") e ;;
       ret None).

Definition removeWallet (user : string) : M bool :=
  try_catch
    (let! store := get_wallets in
     match store !! user with
     | Some userWallet =>
         put_wallets
           (<[user := {| userId := userId userWallet;
                         walletProvider := walletProvider userWallet;
                         isActive := false;
                         createdAt := createdAt userWallet;
                         lastUsed := lastUsed userWallet |}]> store) ;;
         logger_info ("Wallet removed for user " ++ user) ;;
         ret true
     | None => ret false
     end)
    (fun e =>
       logger_error ("Failed to remove wallet for user " ++ user ++ ":") e ;;
       ret false).

(** [if (updates.secret) { updates.secret = await encrypt(updates.secret) }]:
    a secret of [updates] that is a string other than the empty one is
    overwritten with its encryption; an absent one, [undefined] and the
    empty string are left as they are. *)
Definition seal_update (secret : Property string) : M (Property string) :=
  match secret with
  | Present (Some plain) =>
      if JsString.truthy plain
      then let! c := encrypt plain in ret (Present (Some c))
      else ret secret
  | _ => ret secret
  end.

(** After the two [if]s, the spread takes every property that is present in
    [updates]. *)
Definition updateWallet (user : string) (updates : WalletUpdates)
    : M bool :=
  try_catch
    (let! store := get_wallets in
     match store !! user with
     | Some userWallet =>
         if negb (isActive userWallet) then ret false
         else
           let! key := seal_update (new_privateKey updates) in
           let! apiKey := seal_update (new_crossmintApiKey updates) in
           let updates' :=
             {| new_type := new_type updates;
                new_privateKey := key;
                new_rpcUrl := new_rpcUrl updates;
                new_crossmintApiKey := apiKey;
                new_address := new_address updates;
                new_chainId := new_chainId updates |} in
           put_wallets
             (<[user := {| userId := userId userWallet;
                           walletProvider :=
                             merge (walletProvider userWallet) updates';
                           isActive := isActive userWallet;
                           createdAt := createdAt userWallet;
                           lastUsed := lastUsed userWallet |}]> store) ;;
           logger_info ("Wallet updated for user " ++ user) ;;
           ret true
     | None => ret false
     end)
    (fun e =>
       logger_error ("Failed to update wallet for user " ++ user ++ ":") e ;;
       ret false).

End Registry.

End WalletManager.

(** ** Notions the properties are stated with *)

Section Notions.
Context {R : Runtime}.
Import SecurityManager WalletManager.

(** The counter that a [checkRateLimit] call at or after [since] can still
    find live. *)
Definition visible (since : Z) (o : option RateLimit) : option RateLimit :=
  match o with
  | Some c => if decide (since <= resetTime c) then Some c else None
  | None => None
  end.

(** Two maps that differ only in counters that expired before [since]. *)
Definition agree (since : Z) (m1 m2 : gmap string RateLimit) : Prop :=
  forall user, visible since (m1 !! user) = visible since (m2 !! user).

(** A record after [userWallet.isActive = false]. *)
Definition retire (userWallet : UserWallet) : UserWallet :=
  {| userId := userId userWallet;
     walletProvider := walletProvider userWallet;
     isActive := false;
     createdAt := createdAt userWallet;
     lastUsed := lastUsed userWallet |}.

(** Code that leaves the registry as it found it. *)
Definition keeps_wallets {A} (m : M A) : Prop :=
  forall w, wallets (m w).2 = wallets w.



(** The body of [getWallet] once the record is found and active. *)
Definition getWallet_active (user : string) (store : gmap string UserWallet)
    (userWallet : UserWallet) : M (option StoredProvider) :=
  let stored := walletProvider userWallet in
  let! decryptedPrivateKey := decrypt_value (stored_privateKey stored) in
  let! decryptedCrossmintKey :=
    (match stored_crossmintApiKey stored with
     | Some k =>
         if JsString.truthy k
         then let! c := decrypt k in ret (Some c)
         else ret None
     | None => ret None
     end) in
  let! used := with_env newDate in
  put_wallets
    (<[user := {| userId := userId userWallet;
                  walletProvider := stored;
                  isActive := isActive userWallet;
                  createdAt := createdAt userWallet;
                  lastUsed := used |}]> store) ;;
  ret (Some {| stored_type := stored_type stored;
               stored_privateKey := Some decryptedPrivateKey;
               stored_rpcUrl := stored_rpcUrl stored;
               stored_crossmintApiKey := decryptedCrossmintKey;
               stored_address := stored_address stored;
               stored_chainId := stored_chainId stored |}).

(** A secret of an update that the [if] of [updateWallet] sends to
    [encrypt]: a string other than the empty one. *)
Definition truthy_secret (secret : Property string) : bool :=
  match secret with
  | Present (Some plain) => JsString.truthy plain
  | _ => false
  end.

(** The body of [updateWallet] once the record is found and active. *)
Definition updateWallet_active (user : string) (store : gmap string UserWallet)
    (userWallet : UserWallet) (updates : WalletUpdates) : M bool :=
  let! key := seal_update (new_privateKey updates) in
  let! apiKey := seal_update (new_crossmintApiKey updates) in
  let updates' :=
    {| new_type := new_type updates;
       new_privateKey := key;
       new_rpcUrl := new_rpcUrl updates;
       new_crossmintApiKey := apiKey;
       new_address := new_address updates;
       new_chainId := new_chainId updates |} in
  put_wallets
    (<[user := {| userId := userId userWallet;
                  walletProvider := merge (walletProvider userWallet) updates';
                  isActive := isActive userWallet;
                  createdAt := createdAt userWallet;
                  lastUsed := lastUsed userWallet |}]> store) ;;
  logger_info ("Wallet updated for user " ++ user) ;;
  ret true.

(** A call of one of the methods of the registry. *)
Inductive Call :=
| CallRegister (user : string) (provider : WalletProvider)
| CallGet (user : string)
| CallRemove (user : string)
| CallUpdate (user : string) (updates : WalletUpdates).

(** The world after a call. *)
Definition after (w : World) (call : Call) : World :=
  match call with
  | CallRegister user provider => (registerWallet user provider w).2
  | CallGet user => (getWallet user w).2
  | CallRemove user => (removeWallet user w).2
  | CallUpdate user updates => (updateWallet user updates w).2
  end.

End Notions.

(** ** The key format as the specification words it

    The shape the specification gives for an EVM private key, to compare
    [validateEvmWallet] with: 64 hexadecimal characters once a leading [0x],
    if there is one, is taken off. *)

Module Spec.

Definition strip_0x_prefix (key : string) : string :=
  if String.prefix "0x" key
  then String.substring 2 (String.length key - 2) key
  else key.

Definition evm_key (key : string) : bool :=
  let digits := strip_0x_prefix key in
  Nat.eqb (String.length digits) 64 && JsString.forallb Hex.is_digit digits.

End Spec.

(** ** A small runtime to run the services on

    A stand-in for Node, [ethers] and the tool layer, simple enough to
    evaluate: the clock and the entropy pool are a counter, and the two
    cipher calls throw the [TypeError] of a call to a function that the
    [crypto] module does not have. It satisfies [RuntimeLaws] and
    [NodeCrypto]. *)

Module TestRuntime.

Definition byte_of_N (n : N) : byte := byte_of_ascii (ascii_of_N n).

Definition seal (key iv aad plain : list byte)
    : outcome (list byte * list byte) :=
  Throw (mkError "crypto.createCipherGCM is not a function").

Definition open (key iv aad tag cipher : list byte) : outcome (list byte) :=
  Throw (mkError "crypto.createDecipherGCM is not a function").

Definition wallet_address (key : string) : outcome string :=
  if Spec.evm_key key
  then Ok ("0x" ++ String.substring 0 40 (Spec.strip_0x_prefix key))
  else Throw (mkError "invalid private key").

Definition initialize (options : GoatToolsOptions)
    : list LogEntry * outcome unit :=
  if String.prefix "0x" (privateKey (goat_walletProvider options))
  then ([mkLog info "Initialized 3 blockchain tools" None], Ok tt)
  else let e := mkError "invalid private key, expected hex" in
       ([mkLog error "Failed to initialize blockchain tools:" (Some e)],
        Throw e).

#[export] Instance runtime : Runtime := {|
  Env := nat;
  randomBytes := fun n tick => (repeat (byte_of_N (N.of_nat tick)) n, S tick);
  newDate := fun tick => (Z.of_nat tick, S tick);
  encryptionKey := "default-encryption-key-change-this-in-production";
  scryptSync := fun password salt n =>
    take n (list_byte_of_string (password ++ salt) ++ repeat x00 n);
  gcmSeal := seal;
  gcmOpen := open;
  ethersWalletAddress := wallet_address;
  goatInitializeTools := initialize
|}.

Definition world0 : World := mkWorld 7%nat [] ∅.

(** An EVM provider whose key [wallet_address] accepts. *)
Definition provider0 : WalletProvider :=
  {| type := evm;
     privateKey :=
       "4646464646464646464646464646464646464646464646464646464646464646";
     rpcUrl := "https://rpc.example";
     crossmintApiKey := Some "sk_test";
     address := None;
     chainId := Some 1 |}.

(** A string of the form of a blob: three components of hexadecimal
    digits, for a nonce of 16 bytes, a tag of 16 bytes and a ciphertext. *)
Definition tampered : string :=
  "07070707070707070707070707070707:00000000000000000000000000000000:6968".

(** An EVM provider whose key has [0x] in the middle of 64 digits. *)
Definition provider_inner_0x : WalletProvider :=
  {| type := evm;
     privateKey :=
       "aaaaaaaaaaaaaaaaaaaaaaaaaaaaaaaa0xaaaaaaaaaaaaaaaaaaaaaaaaaaaaaaaa";
     rpcUrl := "https://rpc.example";
     crossmintApiKey := None;
     address := None;
     chainId := None |}.

(** The update that carries an empty private key and nothing else. *)
Definition empty_key_update : WalletUpdates :=
  {| new_type := Absent; new_privateKey := Present (Some EmptyString);
     new_rpcUrl := Absent; new_crossmintApiKey := Absent;
     new_address := Absent; new_chainId := Absent |}.

(** The record of user [u] in [corrupt_world]. *)
Definition record_u : UserWallet :=
  {| userId := "u";
     walletProvider :=
       {| stored_type := Some evm; stored_privateKey := Some tampered;
          stored_rpcUrl := Some "https://rpc.example";
          stored_crossmintApiKey := None; stored_address := None;
          stored_chainId := None |};
     isActive := true; createdAt := 1; lastUsed := 2 |}.

(** A registry given outright: it holds, for user [u], an active record
    whose private key has the form of a blob. *)
Definition corrupt_world : World := mkWorld 7%nat [] {[ "u" := record_u ]}.

End TestRuntime.

(** ** The other methods of [SecurityManager]: validators and random text *)

Module SecurityChecks.

(** The class [\d] of a regular expression without the [u] flag. *)
Definition is_decimal (c : ascii) : bool :=
  let n := N_of_ascii c in ((48 <=? n) && (n <=? 57))%N.

(** [/^\d{17,19}$/.test(userId)] *)
Definition validateDiscordUserId (userId : string) : bool :=
  Nat.leb 17 (String.length userId) && Nat.leb (String.length userId) 19
  && JsString.forallb is_decimal userId.

(** The ten characters of the class that [sanitizeInput] removes: the angle
    brackets, the two quotes, percent, semicolon, the parentheses, ampersand
    and plus. *)
Definition denied (c : ascii) : bool :=
  existsb (Ascii.eqb c)
    ["<"; ">"; "034"; "'"; "%"; ";"; "("; ")"; "&"; "+"]%char.

(** [input.replace(/[...]/g, '')]: every character of the class is dropped,
    the others stay in their order. *)
Fixpoint sanitizeInput (input : string) : string :=
  match input with
  | EmptyString => EmptyString
  | String c rest =>
      if denied c then sanitizeInput rest else String c (sanitizeInput rest)
  end.

(** The class [1-9A-HJ-NP-Za-km-z]. *)
Definition is_base58 (c : ascii) : bool :=
  let n := N_of_ascii c in
  (((49 <=? n) && (n <=? 57)) || ((65 <=? n) && (n <=? 72))
   || ((74 <=? n) && (n <=? 78)) || ((80 <=? n) && (n <=? 90))
   || ((97 <=? n) && (n <=? 107)) || ((109 <=? n) && (n <=? 122)))%N.

(** [validateWalletAddress(address, type)]: [/^0x[a-fA-F0-9]{40}$/] for
    [evm], [/^[1-9A-HJ-NP-Za-km-z]{32,44}$/] for [solana], and false in the
    [default] branch of the [switch]. *)
Definition validateWalletAddress (address : string) (type : WalletType) : bool :=
  match type with
  | evm =>
      match address with
      | String "0" (String "x" digits) =>
          Nat.eqb (String.length digits) 40
          && JsString.forallb Hex.is_digit digits
      | _ => false
      end
  | solana =>
      Nat.leb 32 (String.length address) && Nat.leb (String.length address) 44
      && JsString.forallb is_base58 address
  | _ => false
  end.

(** [generateSecureRandom(length)]:
    [crypto.randomBytes(length).toString('hex')]. *)
Definition generateSecureRandom {R : Runtime} (length : nat) : M string :=
  let! bytes := with_env (randomBytes length) in
  ret (Hex.encode bytes).

End SecurityChecks.

(** ** [WalletManager.getStats] *)

Module WalletStats.

Record Stats := mkStats { totalWallets : nat; activeWallets : nat }.

(** [this.wallets.size] and
    [Array.from(this.wallets.values()).filter(w => w.isActive).length]. *)
Definition getStats (store : gmap string UserWallet) : Stats :=
  {| totalWallets := size store;
     activeWallets :=
       length (filter (fun w : UserWallet => isActive w = true)
                      (map snd (map_to_list store))) |}.

End WalletStats.

(** ** [commands/CommandManager.ts]: the wallet configuration commands

    The handlers of [/set-private-key], [/set-rpc-url] and
    [/set-crossmint-key] and the private [createWalletFromTempData] they
    share. A handler gets its string option and the user id of the
    interaction as arguments, and [reply] stands for [interaction.reply] of
    that interaction, which may throw. *)

Module CommandManager.

(** A value of [tempWalletData]: the objects that the handlers build by
    spreading have these three properties at most. *)
Record TempWalletData := mkTemp {
  temp_privateKey : option string;
  temp_rpcUrl : option string;
  temp_crossmintApiKey : option string
}.

(** [this.tempWalletData.get(userId) || {}], and what spreading
    [this.tempWalletData.get(userId)] gives when it is [undefined]. *)
Definition existing_or_empty (o : option TempWalletData) : TempWalletData :=
  default (mkTemp None None None) o.

Definition key_saved : string :=
  "✅ Private key saved securely. Now set your RPC URL with `/set-rpc-url`".
Definition key_failed : string :=
  "❌ Failed to save private key. Please try again.".
Definition rpc_saved_ready : string :=
  "✅ RPC URL saved. Your wallet is ready! You can optionally set a Crossmint API key with `/set-crossmint-key`".
Definition rpc_saved_next : string :=
  "✅ RPC URL saved. Now set your private key with `/set-private-key`".
Definition rpc_failed : string :=
  "❌ Failed to save RPC URL. Please try again.".
Definition crossmint_saved : string := "✅ Crossmint API key saved.".
Definition crossmint_failed : string :=
  "❌ Failed to save Crossmint API key. Please try again.".

Section Handlers.
Context {R : Runtime}.

(** The command manager with the wallet manager it holds: the temporary
    wallet data, the replies sent so far, and the world of the services. *)
Record Bot := mkBot {
  tempWalletData : gmap string TempWalletData;
  replies : list string;
  world : World
}.

Definition H (A : Type) : Type := Bot -> outcome A * Bot.

Definition bot_ret {A} (a : A) : H A := fun b => (Ok a, b).

Definition bot_bind {A B} (m : H A) (k : A -> H B) : H B :=
  fun b => match m b with
           | (Ok a, b') => k a b'
           | (Throw e, b') => (Throw e, b')
           end.

Definition bot_try {A} (body : H A) (handler : JsError -> H A) : H A :=
  fun b => match body b with
           | (Ok a, b') => (Ok a, b')
           | (Throw e, b') => handler e b'
           end.

(** A call into the services. *)
Definition in_world {A} (m : M A) : H A :=
  fun b => let '(o, w') := m (world b) in
           (o, mkBot (tempWalletData b) (replies b) w').

Definition get_temp (userId : string) : H (option TempWalletData) :=
  fun b => (Ok (tempWalletData b !! userId), b).

Definition set_temp (userId : string) (data : TempWalletData) : H unit :=
  fun b => (Ok tt, mkBot (<[userId := data]> (tempWalletData b)) (replies b)
                         (world b)).

Definition delete_temp (userId : string) : H unit :=
  fun b => (Ok tt, mkBot (delete userId (tempWalletData b)) (replies b)
                         (world b)).

Definition has_wallet (userId : string) : H bool :=
  fun b => (Ok (WalletManager.hasWallet userId (wallets (world b))), b).

(** [await interaction.reply({ content, ephemeral: true })] *)
Definition send (reply : string -> outcome unit) (content : string) : H unit :=
  fun b => match reply content with
           | Ok _ => (Ok tt, mkBot (tempWalletData b) (replies b ++ [content])
                                   (world b))
           | Throw e => (Throw e, b)
           end.

End Handlers.

Notation "'do!' x := m 'in' k" := (bot_bind m (fun x => k))
  (at level 10, x name, m at level 100, k at level 200,
   format "'[v' 'do!'  x  :=  m  'in' '/' k ']'").
Notation "m >>> k" := (bot_bind m (fun _ => k))
  (at level 100, k at level 200, right associativity).

Section Commands.
Context {R : Runtime}.
Variable reply : string -> outcome unit.

Definition createWalletFromTempData (userId : string) : H unit :=
  do! tempData := get_temp userId in
  if negb (JsString.truthy_opt (tempData ≫= temp_privateKey))
     || negb (JsString.truthy_opt (tempData ≫= temp_rpcUrl))
  then bot_ret tt
  else
    let walletProvider :=
      {| type := evm;
         privateKey := default EmptyString (tempData ≫= temp_privateKey);
         rpcUrl := default EmptyString (tempData ≫= temp_rpcUrl);
         crossmintApiKey := tempData ≫= temp_crossmintApiKey;
         address := None;
         chainId := None |} in
    in_world (WalletManager.registerWallet userId walletProvider) >>>
    delete_temp userId.

Definition handleSetPrivateKey (privateKey userId : string) : H unit :=
  bot_try
    (do! previous := get_temp userId in
     let spread := existing_or_empty previous in
     set_temp userId {| temp_privateKey := Some privateKey;
                        temp_rpcUrl := temp_rpcUrl spread;
                        temp_crossmintApiKey := temp_crossmintApiKey spread |}
     >>> send reply key_saved)
    (fun e =>
       in_world (logger_error "Failed to set private key:" e) >>>
       send reply key_failed).

Definition handleSetRpcUrl (rpcUrl userId : string) : H unit :=
  bot_try
    (do! previous := get_temp userId in
     let existing := existing_or_empty previous in
     set_temp userId {| temp_privateKey := temp_privateKey existing;
                        temp_rpcUrl := Some rpcUrl;
                        temp_crossmintApiKey := temp_crossmintApiKey existing |}
     >>>
     let hasPrivateKey := JsString.truthy_opt (temp_privateKey existing) in
     let message := if hasPrivateKey then rpc_saved_ready else rpc_saved_next in
     (if hasPrivateKey then createWalletFromTempData userId else bot_ret tt)
     >>> send reply message)
    (fun e =>
       in_world (logger_error "Failed to set RPC URL:" e) >>>
       send reply rpc_failed).

Definition handleSetCrossmintKey (apiKey userId : string) : H unit :=
  bot_try
    (do! previous := get_temp userId in
     let existing := existing_or_empty previous in
     set_temp userId {| temp_privateKey := temp_privateKey existing;
                        temp_rpcUrl := temp_rpcUrl existing;
                        temp_crossmintApiKey := Some apiKey |}
     >>>
     do! registered := has_wallet userId in
     (if registered
      then in_world
             (WalletManager.updateWallet userId
                {| new_type := Absent; new_privateKey := Absent;
                   new_rpcUrl := Absent;
                   new_crossmintApiKey := Present (Some apiKey);
                   new_address := Absent; new_chainId := Absent |})
           >>> bot_ret tt
      else bot_ret tt)
     >>> send reply crossmint_saved)
    (fun e =>
       in_world (logger_error "Failed to set Crossmint API key:" e) >>>
       send reply crossmint_failed).

End Commands.

End CommandManager.

(** ** Notions for the further properties *)

Section MoreNotions.
Context {R : Runtime}.
Import SecurityManager WalletManager.

(** The user of a [checkRateLimit] call. *)
Definition call_user (call : Z * string * Z * Z) : string := call.1.1.2.

(** The calls of one user among the calls of all. *)
Definition calls_of (user : string) (calls : list (Z * string * Z * Z))
    : list (Z * string * Z * Z) :=
  filter (fun call => call_user call = user) calls.

(** The results that the calls of one user got, among those of all. *)
Definition verdicts_of (user : string) (calls : list (Z * string * Z * Z))
    (results : list bool) : list bool :=
  map snd (filter (fun p => call_user p.1 = user) (zip calls results)).

(** A character that [sanitizeInput] keeps. *)
Definition allowed (c : ascii) : bool := negb (SecurityChecks.denied c).

(** The user a call of the registry is about. *)
Definition subject (call : Call) : string :=
  match call with
  | CallRegister user _ | CallGet user | CallRemove user
  | CallUpdate user _ => user
  end.

End MoreNotions.

(** * Properties *)

(** ** Hexadecimal text *)

Lemma Hex_decode_encode_cons (b : byte) (rest : list byte) :
  Hex.decode (Hex.encode (b :: rest)) = b :: Hex.decode (Hex.encode rest).
Proof. destruct b; reflexivity. Qed.

Lemma Hex_decode_encode (buf : list byte) : Hex.decode (Hex.encode buf) = buf.
Proof.
  induction buf as [|b rest IH]; [reflexivity|].
  rewrite Hex_decode_encode_cons. by rewrite IH.
Qed.

Lemma Hex_encode_digits (buf : list byte) :
  JsString.forallb Hex.is_digit (Hex.encode buf) = true.
Proof.
  induction buf as [|b rest IH]; [reflexivity|].
  cbn [Hex.encode JsString.forallb]. rewrite IH.
  destruct b; reflexivity.
Qed.

Lemma Hex_encode_truthy (buf : list byte) :
  JsString.truthy (Hex.encode buf) = match buf with [] => false | _ => true end.
Proof. destruct buf; reflexivity. Qed.

(** ** Splitting at a separator *)

Lemma split_nonempty (sep : ascii) (s : string) : JsString.split sep s <> [].
Proof.
  destruct s as [|c rest]; cbn; [done|].
  destruct (Ascii.eqb c sep); [done|].
  by destruct (JsString.split sep rest).
Qed.

(** A component without the separator, followed by the separator, is the
    first component of the split. *)
Lemma split_app (sep : ascii) (a b : string) :
  JsString.forallb (fun c => negb (Ascii.eqb c sep)) a = true ->
  JsString.split sep (a ++ String sep b) = a :: JsString.split sep b.
Proof.
  induction a as [|c a IH]; intros H.
  - change (EmptyString ++ String sep b) with (String sep b). cbn.
    by rewrite Ascii.eqb_refl.
  - change (String c a ++ String sep b) with (String c (a ++ String sep b)).
    cbn in H |- *. apply andb_prop in H as [Hc Ha]. rewrite (IH Ha).
    by destruct (Ascii.eqb c sep).
Qed.

Lemma split_single (sep : ascii) (a : string) :
  JsString.forallb (fun c => negb (Ascii.eqb c sep)) a = true ->
  JsString.split sep a = [a].
Proof.
  induction a as [|c a IH]; cbn; intros H; [done|].
  apply andb_prop in H as [Hc Ha]. rewrite (IH Ha).
  by destruct (Ascii.eqb c sep).
Qed.

Lemma forallb_impl (p q : ascii -> bool) (s : string) :
  (forall c, p c = true -> q c = true) ->
  JsString.forallb p s = true -> JsString.forallb q s = true.
Proof.
  intros Hpq. induction s as [|c s IH]; cbn; [done|].
  intros H. apply andb_prop in H as [Hc Hs].
  by rewrite (Hpq c Hc), (IH Hs).
Qed.

Lemma Hex_encode_no_colon (buf : list byte) :
  JsString.forallb (fun c => negb (Ascii.eqb c ":")) (Hex.encode buf) = true.
Proof.
  apply (forallb_impl Hex.is_digit); [|apply Hex_encode_digits].
  intros c. unfold Hex.is_digit, Hex.value.
  destruct (Ascii.eqb_spec c ":") as [->|]; [discriminate|done].
Qed.

(** The three components of a blob, and whatever follows a fourth colon. *)
Lemma split_blob (iv tag encrypted : list byte) :
  JsString.split ":" (SecurityManager.blob iv tag encrypted)
  = [Hex.encode iv; Hex.encode tag; Hex.encode encrypted].
Proof.
  change (SecurityManager.blob iv tag encrypted)
    with (Hex.encode iv
          ++ String ":" (Hex.encode tag ++ String ":" (Hex.encode encrypted))).
  rewrite (split_app ":" (Hex.encode iv)) by apply Hex_encode_no_colon.
  rewrite (split_app ":" (Hex.encode tag)) by apply Hex_encode_no_colon.
  by rewrite split_single by apply Hex_encode_no_colon.
Qed.

(** ** The cipher *)

Section CipherFacts.
Context {R : Runtime}.
Import SecurityManager.

(** What [encrypt] does, by the outcome of the primitive. *)
Lemma encrypt_unfold (plain : string) (w : World) :
  encrypt plain w =
  let '(iv, env') := randomBytes ivLength (env w) in
  match gcmSeal derivedKey iv aad (list_byte_of_string plain) with
  | Ok (encrypted, tag) =>
      (Ok (blob iv tag encrypted), mkWorld env' (logs w) (wallets w))
  | Throw e =>
      (Throw (mkError "Failed to encrypt data"),
       mkWorld env' (logs w ++ [mkLog error "Encryption failed:" (Some e)])
               (wallets w))
  end.
Proof.
  unfold encrypt, try_catch, bind, with_env, lift, ret.
  destruct (randomBytes ivLength (env w)) as [iv env'].
  destruct (gcmSeal derivedKey iv aad (list_byte_of_string plain))
    as [[encrypted tag]|e]; reflexivity.
Qed.

(** [encrypt] never touches the registry. *)
Lemma encrypt_wallets (plain : string) (w : World) :
  wallets (encrypt plain w).2 = wallets w.
Proof.
  rewrite encrypt_unfold.
  destruct (randomBytes ivLength (env w)) as [iv env'].
  by destruct (gcmSeal derivedKey iv aad (list_byte_of_string plain))
    as [[encrypted tag]|e].
Qed.

(** A blob whose third component is empty is refused before any
    cryptography is attempted. *)
Lemma decrypt_blob_empty (iv tag : list byte) (w : World) :
  decrypt (blob iv tag []) w =
  (Throw (mkError "Failed to decrypt data"),
   mkWorld (env w)
           (logs w ++ [mkLog error "Decryption failed:"
                             (Some (mkError "Invalid encrypted data format"))])
           (wallets w)).
Proof.
  unfold decrypt, try_catch, bind, lift, ret, throw.
  rewrite split_blob. cbn [lookup list_lookup JsString.truthy_opt default].
  rewrite !Hex_encode_truthy. by rewrite !orb_true_r.
Qed.

(** [decrypt] returns a plaintext and changes nothing, or throws its one
    error, logs the cause, and leaves the registry alone. *)
Lemma decrypt_cases (data : string) (w : World) :
  (exists plain, decrypt data w = (Ok plain, w))
  \/ (exists cause, decrypt data w
        = (Throw (mkError "Failed to decrypt data"),
           mkWorld (env w)
                   (logs w ++ [mkLog error "Decryption failed:" (Some cause)])
                   (wallets w))).
Proof.
  unfold decrypt, try_catch, bind, lift, ret, throw.
  destruct (negb _ || negb _ || negb _); [right; by eexists|].
  destruct (gcmOpen _ _ _ _ _); [left|right]; by eexists.
Qed.

Lemma decrypt_value_cases (value : option string) (w : World) :
  (exists plain, decrypt_value value w = (Ok plain, w))
  \/ (exists cause, decrypt_value value w
        = (Throw (mkError "Failed to decrypt data"),
           mkWorld (env w)
                   (logs w ++ [mkLog error "Decryption failed:" (Some cause)])
                   (wallets w))).
Proof.
  destruct value as [data|]; [apply decrypt_cases|].
  right. by eexists.
Qed.

(** When the split gives fewer than three components, or one of the first
    three is empty, [decrypt] throws on its own check, before any call of
    the [crypto] module but the key derivation. *)
Lemma decrypt_format_error (data : string) (w : World) :
  let parts := JsString.split ":" data in
  (length parts < 3)%nat
  \/ parts !! 0%nat = Some EmptyString \/ parts !! 1%nat = Some EmptyString
  \/ parts !! 2%nat = Some EmptyString ->
  decrypt data w
  = (Throw (mkError "Failed to decrypt data"),
     mkWorld (env w)
       (logs w ++ [mkLog error "Decryption failed:"
                         (Some (mkError "Invalid encrypted data format"))])
       (wallets w)).
Proof.
  intros parts H.
  assert (negb (JsString.truthy_opt (parts !! 0%nat))
          || negb (JsString.truthy_opt (parts !! 1%nat))
          || negb (JsString.truthy_opt (parts !! 2%nat)) = true) as Hbad.
  { destruct H as [H|[H|[H|H]]]; try (rewrite H; cbn; by rewrite ?orb_true_r).
    destruct parts as [|a [|b [|c rest]]]; cbn in *;
      try lia; by rewrite ?orb_true_r. }
  unfold decrypt, try_catch, bind, throw. fold parts.
  by rewrite Hbad.
Qed.

(** *** With the [crypto] module of Node *)

Context {N : NodeCrypto R}.

(** [encrypt] draws the nonce, fails to create the cipher, and throws. *)
Lemma encrypt_throws (plain : string) (w : World) :
  exists cause,
    encrypt plain w
    = (Throw (mkError "Failed to encrypt data"),
       mkWorld (randomBytes ivLength (env w)).2
         (logs w ++ [mkLog error "Encryption failed:" (Some cause)])
         (wallets w)).
Proof.
  rewrite encrypt_unfold.
  destruct (randomBytes ivLength (env w)) as [iv env'].
  destruct (createCipherGCM_undefined derivedKey iv aad
              (list_byte_of_string plain)) as [e ->].
  by exists e.
Qed.

(** [decrypt] throws for every input. *)
Lemma decrypt_throws (data : string) (w : World) :
  exists cause,
    decrypt data w
    = (Throw (mkError "Failed to decrypt data"),
       mkWorld (env w)
         (logs w ++ [mkLog error "Decryption failed:" (Some cause)])
         (wallets w)).
Proof.
  unfold decrypt, try_catch, bind, lift, ret, throw.
  destruct (negb _ || negb _ || negb _); [by eexists|].
  match goal with
  | |- context [gcmOpen ?k ?iv ?a ?t ?c] =>
      destruct (createDecipherGCM_undefined k iv a t c) as [e ->]
  end.
  by exists e.
Qed.

Lemma decrypt_value_throws (value : option string) (w : World) :
  exists cause,
    decrypt_value value w
    = (Throw (mkError "Failed to decrypt data"),
       mkWorld (env w)
         (logs w ++ [mkLog error "Decryption failed:" (Some cause)])
         (wallets w)).
Proof.
  destruct value as [data|]; [apply decrypt_throws|]. by eexists.
Qed.

End CipherFacts.

(** A pair is its first component next to its second. *)
Lemma pair_of_fst {A B} (p : A * B) (a : A) : p.1 = a -> p = (a, p.2).
Proof. destruct p. by intros <-. Qed.

(** The test runtime satisfies the laws, and has the [crypto] module of
    Node. *)
Lemma TestRuntime_laws : RuntimeLaws TestRuntime.runtime.
Proof. split. intros n tick. cbn. apply repeat_length. Qed.

Lemma TestRuntime_node : NodeCrypto TestRuntime.runtime.
Proof. split; intros; by eexists. Qed.

(** C3: with the [crypto] module of Node, no plaintext makes the round
    trip. For every plaintext, [encrypt] draws the nonce, logs the error of
    the missing [createCipherGCM] and throws [Failed to encrypt data]: there
    is no blob to decrypt. [decrypt] in turn throws [Failed to decrypt data]
    for every input. And whatever the cipher does, a blob whose third
    component is empty, which is the form of the blob of the empty
    plaintext, is refused by the check [!encrypted] of [decrypt]. *)
Theorem encrypt_decrypt_no_round_trip
    {R : Runtime} {N : NodeCrypto R} (plain : string) (w : World) :
  (exists cause,
      SecurityManager.encrypt plain w
      = (Throw (mkError "Failed to encrypt data"),
         mkWorld (randomBytes SecurityManager.ivLength (env w)).2
           (logs w ++ [mkLog error "Encryption failed:" (Some cause)])
           (wallets w)))
  /\ (forall data w',
        (SecurityManager.decrypt data w').1
        = Throw (mkError "Failed to decrypt data"))
  /\ (forall iv tag w',
        SecurityManager.decrypt (SecurityManager.blob iv tag []) w'
        = (Throw (mkError "Failed to decrypt data"),
           mkWorld (env w')
             (logs w'
              ++ [mkLog error "Decryption failed:"
                        (Some (mkError "Invalid encrypted data format"))])
             (wallets w'))).
Proof.
  split; [apply encrypt_throws|]. split.
  - intros data w'. by destruct (decrypt_throws data w') as [cause ->].
  - intros iv tag w'. apply decrypt_blob_empty.
Qed.

Lemma encrypt_decrypt_no_round_trip_witness :
  (SecurityManager.encrypt "hi" TestRuntime.world0).1
  = Throw (mkError "Failed to encrypt data")
  /\ (SecurityManager.encrypt EmptyString TestRuntime.world0).1
     = Throw (mkError "Failed to encrypt data")
  /\ (SecurityManager.decrypt TestRuntime.tampered TestRuntime.world0).1
     = Throw (mkError "Failed to decrypt data")
  /\ (SecurityManager.decrypt
        "07070707070707070707070707070707:00000000000000000000000000000000:"
        TestRuntime.world0).1
     = Throw (mkError "Failed to decrypt data").
Proof.
  destruct (@encrypt_decrypt_no_round_trip TestRuntime.runtime
              TestRuntime_node "hi" TestRuntime.world0)
    as ((cause & Henc) & Hdec & _).
  destruct (@encrypt_decrypt_no_round_trip TestRuntime.runtime
              TestRuntime_node EmptyString TestRuntime.world0)
    as ((cause' & Henc') & _ & _).
  split; [by rewrite Henc|]. split; [by rewrite Henc'|].
  split; apply Hdec.
Defined.

(** C6, as the code has it: [decrypt] has one error, [Failed to decrypt
    data]. With the [crypto] module of Node it throws it for every input,
    whatever the number of components and whatever they are made of, logs
    the cause, returns no data, and leaves the registry alone; and when the
    split gives fewer than three components, or one of the first three is
    empty, the cause that it logs is its own format error. *)
Theorem decrypt_malformed_throws
    {R : Runtime} {N : NodeCrypto R} (data : string) (w : World) :
  let parts := JsString.split ":" data in
  (exists cause,
      SecurityManager.decrypt data w
      = (Throw (mkError "Failed to decrypt data"),
         mkWorld (env w)
           (logs w ++ [mkLog error "Decryption failed:" (Some cause)])
           (wallets w)))
  /\ ((length parts < 3)%nat
      \/ parts !! 0%nat = Some EmptyString \/ parts !! 1%nat = Some EmptyString
      \/ parts !! 2%nat = Some EmptyString ->
      SecurityManager.decrypt data w
      = (Throw (mkError "Failed to decrypt data"),
         mkWorld (env w)
           (logs w ++ [mkLog error "Decryption failed:"
                             (Some (mkError "Invalid encrypted data format"))])
           (wallets w))).
Proof.
  intros parts. split; [apply decrypt_throws|apply decrypt_format_error].
Qed.

Lemma decrypt_malformed_throws_witness :
  (SecurityManager.decrypt "garbage" TestRuntime.world0
   = (Throw (mkError "Failed to decrypt data"),
      mkWorld (env TestRuntime.world0)
        (logs TestRuntime.world0
         ++ [mkLog error "Decryption failed:"
                   (Some (mkError "Invalid encrypted data format"))])
        (wallets TestRuntime.world0)))
  /\ (length (JsString.split ":" "aa:bb:cc:dd") = 4%nat
      /\ exists cause,
           SecurityManager.decrypt "aa:bb:cc:dd" TestRuntime.world0
           = (Throw (mkError "Failed to decrypt data"),
              mkWorld (env TestRuntime.world0)
                (logs TestRuntime.world0
                 ++ [mkLog error "Decryption failed:" (Some cause)])
                (wallets TestRuntime.world0)))
  /\ (JsString.forallb Hex.is_digit "zz" = false
      /\ exists cause,
           SecurityManager.decrypt "aa:bb:zz" TestRuntime.world0
           = (Throw (mkError "Failed to decrypt data"),
              mkWorld (env TestRuntime.world0)
                (logs TestRuntime.world0
                 ++ [mkLog error "Decryption failed:" (Some cause)])
                (wallets TestRuntime.world0))).
Proof.
  split; [|split; split; try reflexivity].
  - apply (proj2 (@decrypt_malformed_throws TestRuntime.runtime
                    TestRuntime_node "garbage" TestRuntime.world0)).
    left. vm_compute; lia.
  - apply (proj1 (@decrypt_malformed_throws TestRuntime.runtime
                    TestRuntime_node "aa:bb:cc:dd" TestRuntime.world0)).
  - apply (proj1 (@decrypt_malformed_throws TestRuntime.runtime
                    TestRuntime_node "aa:bb:zz" TestRuntime.world0)).
Defined.

(** C6, as stated, fails: the error thrown for an input that is no blob is
    the very error thrown for a blob of three hexadecimal components;
    nothing in it tells a malformed blob from a blob that cannot be
    opened. *)
Lemma decrypt_malformed_counterexample :
  (length (JsString.split ":" "garbage") < 3)%nat
  /\ length (JsString.split ":" TestRuntime.tampered) = 3%nat
  /\ (SecurityManager.decrypt "garbage" TestRuntime.world0).1
     = Throw (mkError "Failed to decrypt data")
  /\ (SecurityManager.decrypt TestRuntime.tampered TestRuntime.world0).1
     = (SecurityManager.decrypt "garbage" TestRuntime.world0).1.
Proof.
  split; [vm_compute; lia|]. repeat split; vm_compute; reflexivity.
Qed.

(** ** The rate limiter *)

Section RateLimiter.
Import SecurityManager.
Implicit Types (m : gmap string RateLimit) (user : string).

Lemma checkRateLimit_fresh now user limit windowMs m :
  (forall c, m !! user = Some c -> now > resetTime c) ->
  checkRateLimit now user limit windowMs m
  = (true, <[user := mkRateLimit 1 (now + windowMs)]> m).
Proof.
  intros Hexp. unfold checkRateLimit.
  destruct (m !! user) as [c|]; [|done].
  specialize (Hexp c eq_refl).
  destruct (Z.gtb_spec now (resetTime c)); [done|lia].
Qed.

Lemma checkRateLimit_below now user limit windowMs m c :
  m !! user = Some c -> now <= resetTime c -> count c < limit ->
  checkRateLimit now user limit windowMs m
  = (true, <[user := mkRateLimit (count c + 1) (resetTime c)]> m).
Proof.
  intros Hc Hlive Hlt. unfold checkRateLimit. rewrite Hc.
  destruct (Z.gtb_spec now (resetTime c)); [lia|].
  destruct (Z.geb_spec (count c) limit); [lia|done].
Qed.

Lemma checkRateLimit_reached now user limit windowMs m c :
  m !! user = Some c -> now <= resetTime c -> count c >= limit ->
  checkRateLimit now user limit windowMs m = (false, m).
Proof.
  intros Hc Hlive Hge. unfold checkRateLimit. rewrite Hc.
  destruct (Z.gtb_spec now (resetTime c)); [lia|].
  destruct (Z.geb_spec (count c) limit); [done|lia].
Qed.

(** Three admissions in one window, a rejection, and an admission once the
    window is over. *)
Lemma checkRateLimit_window t1 t2 t3 t4 t5 user windowMs m :
  (forall c, m !! user = Some c -> t1 > resetTime c) ->
  t2 <= t1 + windowMs -> t3 <= t1 + windowMs -> t4 <= t1 + windowMs ->
  t5 > t1 + windowMs ->
  (checkRateLimits [(t1, user, 3, windowMs); (t2, user, 3, windowMs);
                    (t3, user, 3, windowMs); (t4, user, 3, windowMs);
                    (t5, user, 3, windowMs)] m).1
  = [true; true; true; false; true].
Proof.
  intros Hexp H2 H3 H4 H5. cbn [checkRateLimits].
  rewrite (checkRateLimit_fresh t1) by done.
  rewrite (checkRateLimit_below t2 _ _ _ _ (mkRateLimit 1 (t1 + windowMs)));
    [|apply lookup_insert_eq|cbn; lia|cbn; lia].
  rewrite insert_insert_eq. cbn [count resetTime].
  rewrite (checkRateLimit_below t3 _ _ _ _ (mkRateLimit 2 (t1 + windowMs)));
    [|apply lookup_insert_eq|cbn; lia|cbn; lia].
  rewrite insert_insert_eq. cbn [count resetTime].
  rewrite (checkRateLimit_reached t4 _ _ _ _ (mkRateLimit 3 (t1 + windowMs)));
    [|apply lookup_insert_eq|cbn; lia|cbn; lia].
  rewrite (checkRateLimit_fresh t5); [done|].
  intros c. rewrite lookup_insert_eq. intros [= <-]. cbn. lia.
Qed.

End RateLimiter.

(** C5: a call that finds no counter, or one whose reset time has passed,
    stores a counter of 1 that resets at [now + windowMs] and admits; a call
    that finds a live counter below the limit increments it and admits; a
    call that finds a live counter at or above the limit rejects and leaves
    the map as it was. With a limit of 3, three calls within the window are
    admitted, the fourth is rejected, and a call after the reset time is
    admitted. This holds for every limit, positive or not. *)
Theorem checkRateLimit_fixed_window
    (now limit windowMs : Z) (user : string)
    (m : gmap string SecurityManager.RateLimit) :
  ((forall c, m !! user = Some c -> now > SecurityManager.resetTime c) ->
   SecurityManager.checkRateLimit now user limit windowMs m
   = (true, <[user := SecurityManager.mkRateLimit 1 (now + windowMs)]> m))
  /\ (forall c, m !! user = Some c ->
        now <= SecurityManager.resetTime c ->
        SecurityManager.count c < limit ->
        SecurityManager.checkRateLimit now user limit windowMs m
        = (true, <[user := SecurityManager.mkRateLimit
                             (SecurityManager.count c + 1)
                             (SecurityManager.resetTime c)]> m))
  /\ (forall c, m !! user = Some c ->
        now <= SecurityManager.resetTime c ->
        SecurityManager.count c >= limit ->
        SecurityManager.checkRateLimit now user limit windowMs m = (false, m))
  /\ (forall t2 t3 t4 t5,
        (forall c, m !! user = Some c -> now > SecurityManager.resetTime c) ->
        t2 <= now + windowMs -> t3 <= now + windowMs -> t4 <= now + windowMs ->
        t5 > now + windowMs ->
        (SecurityManager.checkRateLimits
           [(now, user, 3, windowMs); (t2, user, 3, windowMs);
            (t3, user, 3, windowMs); (t4, user, 3, windowMs);
            (t5, user, 3, windowMs)] m).1
        = [true; true; true; false; true]).
Proof.
  split; [apply checkRateLimit_fresh|].
  split; [intros c; apply checkRateLimit_below|].
  split; [intros c; apply checkRateLimit_reached|].
  intros t2 t3 t4 t5. apply checkRateLimit_window.
Qed.

Lemma checkRateLimit_fixed_window_witness :
  let live := {["u" := SecurityManager.mkRateLimit 1 1000]}
              : gmap string SecurityManager.RateLimit in
  let full := {["u" := SecurityManager.mkRateLimit 3 1000]}
              : gmap string SecurityManager.RateLimit in
  SecurityManager.checkRateLimit 0 "u" 3 1000 ∅
  = (true, {["u" := SecurityManager.mkRateLimit 1 1000]})
  /\ SecurityManager.checkRateLimit 10 "u" 3 1000 live
     = (true, <["u" := SecurityManager.mkRateLimit 2 1000]> live)
  /\ SecurityManager.checkRateLimit 30 "u" 3 1000 full = (false, full)
  /\ (SecurityManager.checkRateLimits
        [(0, "u", 3, 1000); (10, "u", 3, 1000); (20, "u", 3, 1000);
         (30, "u", 3, 1000); (1001, "u", 3, 1000)] ∅).1
     = [true; true; true; false; true].
Proof.
  intros live full.
  split; [|split; [|split]].
  - apply (proj1 (checkRateLimit_fixed_window 0 3 1000 "u" ∅)).
    intros c Hc. by rewrite lookup_empty in Hc.
  - apply (proj1 (proj2 (checkRateLimit_fixed_window 10 3 1000 "u" live))
             (SecurityManager.mkRateLimit 1 1000));
      [reflexivity|cbn; lia|cbn; lia].
  - apply (proj1 (proj2 (proj2 (checkRateLimit_fixed_window 30 3 1000 "u" full)))
             (SecurityManager.mkRateLimit 3 1000));
      [reflexivity|cbn; lia|cbn; lia].
  - apply (proj2 (proj2 (proj2 (checkRateLimit_fixed_window 0 3 1000 "u" ∅)))
             10 20 30 1001); try lia.
    intros c Hc. by rewrite lookup_empty in Hc.
Defined.

(** ** Cleaning up expired counters *)

Section Cleanup.
Import SecurityManager.
Implicit Types (m : gmap string RateLimit) (user : string).

Lemma cleanupRateLimits_lookup now m user c :
  cleanupRateLimits now m !! user = Some c
  <-> m !! user = Some c /\ ~ now > resetTime c.
Proof. unfold cleanupRateLimits. by rewrite map_lookup_filter_Some. Qed.

Lemma cleanupRateLimits_agree now m : agree now (cleanupRateLimits now m) m.
Proof.
  intros user. unfold visible.
  destruct (cleanupRateLimits now m !! user) as [c|] eqn:Hc.
  - apply cleanupRateLimits_lookup in Hc as [-> _]. done.
  - destruct (m !! user) as [c|] eqn:Hm; [|done].
    case_decide; [|done].
    assert (cleanupRateLimits now m !! user = Some c) as Hsome
      by (apply cleanupRateLimits_lookup; split; [done|lia]).
    congruence.
Qed.

Lemma agree_insert since m1 m2 user c :
  agree since m1 m2 -> agree since (<[user := c]> m1) (<[user := c]> m2).
Proof.
  intros H other. destruct (decide (user = other)) as [->|Hne].
  - by rewrite !lookup_insert_eq.
  - rewrite !lookup_insert_ne by done. apply H.
Qed.

(** A call at or after [since] cannot tell two agreeing maps apart, and
    leaves them agreeing. *)
Lemma checkRateLimit_agree since now user limit windowMs m1 m2 :
  agree since m1 m2 -> since <= now ->
  (checkRateLimit now user limit windowMs m1).1
  = (checkRateLimit now user limit windowMs m2).1
  /\ agree since (checkRateLimit now user limit windowMs m1).2
                 (checkRateLimit now user limit windowMs m2).2.
Proof.
  intros Hag Hle. pose proof (Hag user) as Hu.
  unfold checkRateLimit, visible in *.
  destruct (m1 !! user) as [c1|], (m2 !! user) as [c2|];
    repeat case_decide; simplify_eq;
    repeat match goal with
           | |- context [?a >? ?b] => destruct (Z.gtb_spec a b); try lia
           | |- context [?a >=? ?b] => destruct (Z.geb_spec a b); try lia
           end;
    cbn; split; try done; by apply agree_insert.
Qed.

Lemma checkRateLimits_agree since calls m1 m2 :
  agree since m1 m2 ->
  Forall (fun call => since <= call.1.1.1) calls ->
  (checkRateLimits calls m1).1 = (checkRateLimits calls m2).1.
Proof.
  intros Hag Hcalls. revert m1 m2 Hag.
  induction Hcalls as [|[[[now user] limit] windowMs] rest Hnow _ IH];
    intros m1 m2 Hag; [done|].
  cbn [checkRateLimits]. cbn in Hnow.
  destruct (checkRateLimit_agree since now user limit windowMs m1 m2 Hag Hnow)
    as [Hres Hnext].
  destruct (checkRateLimit now user limit windowMs m1) as [b1 n1].
  destruct (checkRateLimit now user limit windowMs m2) as [b2 n2].
  cbn in Hres, Hnext. subst b2. specialize (IH n1 n2 Hnext).
  destruct (checkRateLimits rest n1), (checkRateLimits rest n2).
  cbn in *. by rewrite IH.
Qed.

End Cleanup.

(** C7: [cleanupRateLimits] removes exactly the counters whose reset time has
    passed, and every sequence of [checkRateLimit] calls made at or after the
    time of the cleanup, for any users, limits and windows, gets the same
    admissions with the cleanup as without it. *)
Theorem cleanupRateLimits_unobservable
    (cleanupTime : Z) (m : gmap string SecurityManager.RateLimit)
    (calls : list (Z * string * Z * Z)) :
  Forall (fun call => cleanupTime <= call.1.1.1) calls ->
  (forall user c,
      SecurityManager.cleanupRateLimits cleanupTime m !! user = Some c
      <-> m !! user = Some c /\ ~ cleanupTime > SecurityManager.resetTime c)
  /\ (SecurityManager.checkRateLimits calls
        (SecurityManager.cleanupRateLimits cleanupTime m)).1
     = (SecurityManager.checkRateLimits calls m).1.
Proof.
  intros Hcalls. split.
  - intros user c. apply cleanupRateLimits_lookup.
  - apply (checkRateLimits_agree cleanupTime); [|done].
    apply cleanupRateLimits_agree.
Qed.

Lemma cleanupRateLimits_unobservable_witness :
  let m := <["a" := SecurityManager.mkRateLimit 3 50]>
             {["b" := SecurityManager.mkRateLimit 2 500]}
           : gmap string SecurityManager.RateLimit in
  let calls := [(100, "a", 3, 1000); (100, "b", 3, 1000); (200, "b", 3, 1000);
                (300, "a", 3, 1000)] in
  SecurityManager.cleanupRateLimits 100 m !! "a" = None
  /\ (SecurityManager.checkRateLimits calls
        (SecurityManager.cleanupRateLimits 100 m)).1
     = [true; true; false; true]
  /\ (SecurityManager.checkRateLimits calls
        (SecurityManager.cleanupRateLimits 100 m)).1
     = (SecurityManager.checkRateLimits calls m).1.
Proof.
  intros m calls.
  split; [vm_compute; reflexivity|].
  split; [vm_compute; reflexivity|].
  apply (cleanupRateLimits_unobservable 100 m calls).
  repeat constructor; cbn; lia.
Defined.

(** ** The wallet registry *)

Section RegistryFacts.
Context {R : Runtime}.
Import SecurityManager WalletManager.

Lemma removeWallet_stored (user : string) (w : World) (userWallet : UserWallet) :
  wallets w !! user = Some userWallet ->
  removeWallet user w
  = (Ok true,
     mkWorld (env w)
             (logs w ++ [mkLog info ("Wallet removed for user " ++ user) None])
             (<[user := retire userWallet]> (wallets w))).
Proof.
  intros H. unfold removeWallet, try_catch, bind, get_wallets. cbn.
  by rewrite H.
Qed.

Lemma removeWallet_missing (user : string) (w : World) :
  wallets w !! user = None -> removeWallet user w = (Ok false, w).
Proof.
  intros H. unfold removeWallet, try_catch, bind, get_wallets. cbn.
  by rewrite H.
Qed.

End RegistryFacts.

(** C4, as the code has it: when a record is stored for the user,
    [removeWallet] returns true and clears [isActive], keeping the record;
    an immediately repeated [removeWallet] finds the retired record and
    returns true again, changing nothing in the registry; [hasWallet] is
    false after either call; and [removeWallet] returns false, and changes
    nothing, when no record is stored for the user. *)
Theorem removeWallet_retires_record
    {R : Runtime} (user : string) (w : World) :
  (forall userWallet,
      wallets w !! user = Some userWallet ->
      let first := WalletManager.removeWallet user w in
      let second := WalletManager.removeWallet user first.2 in
      first.1 = Ok true
      /\ wallets first.2 = <[user := retire userWallet]> (wallets w)
      /\ WalletManager.hasWallet user (wallets first.2) = false
      /\ second.1 = Ok true
      /\ wallets second.2 = wallets first.2
      /\ WalletManager.hasWallet user (wallets second.2) = false)
  /\ (wallets w !! user = None ->
      WalletManager.removeWallet user w = (Ok false, w)).
Proof.
  split; [|apply removeWallet_missing].
  intros userWallet H first second. subst first second.
  rewrite (removeWallet_stored user w userWallet H). cbn [fst snd wallets].
  erewrite removeWallet_stored by apply lookup_insert_eq.
  cbn [fst snd wallets]. unfold WalletManager.hasWallet.
  rewrite insert_insert_eq, !lookup_insert_eq. by repeat split.
Qed.

Lemma removeWallet_retires_record_witness :
  let w := TestRuntime.corrupt_world in
  let first := WalletManager.removeWallet "u" w in
  let second := WalletManager.removeWallet "u" first.2 in
  wallets w !! "u" = Some TestRuntime.record_u
  /\ first.1 = Ok true /\ second.1 = Ok true
  /\ wallets first.2 !! "u" = Some (retire TestRuntime.record_u)
  /\ WalletManager.hasWallet "u" (wallets second.2) = false
  /\ WalletManager.removeWallet "nobody" w = (Ok false, w).
Proof.
  intros w first second.
  assert (wallets w !! "u" = Some TestRuntime.record_u) as Hstored
    by apply lookup_insert_eq.
  destruct (proj1 (removeWallet_retires_record "u" w) _ Hstored)
    as (H1 & Hw & _ & H2 & _ & H3).
  split; [exact Hstored|]. split; [exact H1|]. split; [exact H2|].
  split; [unfold first; rewrite Hw; apply lookup_insert_eq|].
  split; [exact H3|].
  apply (proj2 (removeWallet_retires_record "nobody" w)).
  vm_compute; reflexivity.
Defined.

(** C4, as stated, fails: in a registry that holds an active record for
    user [u], the repeated [removeWallet] returns true, not false. *)
Lemma removeWallet_repeated_counterexample :
  let w := TestRuntime.corrupt_world in
  let first := WalletManager.removeWallet "u" w in
  let second := WalletManager.removeWallet "u" first.2 in
  wallets w !! "u" = Some TestRuntime.record_u
  /\ first.1 = Ok true
  /\ second.1 = Ok true
  /\ second.1 <> Ok false.
Proof.
  cbv zeta.
  assert (wallets TestRuntime.corrupt_world !! "u"
          = Some TestRuntime.record_u) as Hstored by apply lookup_insert_eq.
  rewrite (removeWallet_stored "u" _ _ Hstored). cbn [fst snd].
  erewrite removeWallet_stored by apply lookup_insert_eq. cbn [fst].
  by repeat split.
Qed.

(** *** Code that leaves the registry alone *)

Section KeepsWallets.
Context {R : Runtime}.
Import SecurityManager WalletManager.

Lemma keeps_ret {A} (a : A) : keeps_wallets (ret a).
Proof. done. Qed.

Lemma keeps_throw {A} (e : JsError) : keeps_wallets (@throw R A e).
Proof. done. Qed.

Lemma keeps_lift {A} (o : outcome A) : keeps_wallets (lift o).
Proof. done. Qed.

Lemma keeps_log (entries : list LogEntry) : keeps_wallets (log entries).
Proof. done. Qed.

Lemma keeps_with_env {A} (f : Env -> A * Env) : keeps_wallets (with_env f).
Proof. intros w. unfold with_env. by destruct (f (env w)). Qed.

Lemma keeps_bind {A B} (m : M A) (k : A -> M B) :
  keeps_wallets m -> (forall a, keeps_wallets (k a)) ->
  keeps_wallets (bind m k).
Proof.
  intros Hm Hk w. unfold bind. specialize (Hm w).
  destruct (m w) as [[a|e] w']; cbn in *; [|done].
  by rewrite Hk.
Qed.

Lemma keeps_try_catch {A} (m : M A) (h : JsError -> M A) :
  keeps_wallets m -> (forall e, keeps_wallets (h e)) ->
  keeps_wallets (try_catch m h).
Proof.
  intros Hm Hh w. unfold try_catch. specialize (Hm w).
  destruct (m w) as [[a|e] w']; cbn in *; [done|].
  by rewrite Hh.
Qed.

Lemma keeps_encrypt (plain : string) : keeps_wallets (encrypt plain).
Proof. intros w. apply encrypt_wallets. Qed.

Lemma keeps_decrypt (data : string) : keeps_wallets (decrypt data).
Proof.
  intros w. by destruct (decrypt_cases data w) as [[plain ->]|[cause ->]].
Qed.

End KeepsWallets.

Ltac keeps_wallets :=
  repeat first
    [ apply keeps_ret | apply keeps_throw | apply keeps_lift | apply keeps_log
    | apply keeps_with_env | apply keeps_encrypt | apply keeps_decrypt
    | apply keeps_bind; [|intros ?]
    | apply keeps_try_catch; [|intros ?]
    | match goal with
      | |- keeps_wallets (if ?c then _ else _) => destruct c
      | |- keeps_wallets (match ?x with _ => _ end) => destruct x
      end ].

Section RegisterFacts.
Context {R : Runtime}.
Import SecurityManager WalletManager.

Lemma registerWallet_record_wallets (user : string) (provider : WalletProvider) :
  keeps_wallets (registerWallet_record user provider).
Proof. unfold registerWallet_record, logger_info. keeps_wallets. Qed.

Lemma bind_Ok {A B} (m : M A) (k : A -> M B) w b w' :
  bind m k w = (Ok b, w') ->
  exists a w1, m w = (Ok a, w1) /\ k a w1 = (Ok b, w').
Proof.
  unfold bind. destruct (m w) as [[a|e] w1]; [|done]. intros H.
  by exists a, w1.
Qed.

Lemma bind_ok {A B} (m : M A) (k : A -> M B) w a w1 :
  m w = (Ok a, w1) -> bind m k w = k a w1.
Proof. unfold bind. by intros ->. Qed.

Lemma bind_throw {A B} (m : M A) (k : A -> M B) w e w1 :
  m w = (Throw e, w1) -> bind m k w = (Throw e, w1).
Proof. unfold bind. by intros ->. Qed.

(** The record that the first phase builds is active and is the user's. *)
Lemma registerWallet_record_active user provider w userWallet w' :
  registerWallet_record user provider w = (Ok userWallet, w') ->
  isActive userWallet = true /\ userId userWallet = user.
Proof.
  unfold registerWallet_record. intros H.
  repeat (apply bind_Ok in H as (? & ? & _ & H)).
  by injection H as <- <-.
Qed.

(** What [registerWallet] does, by the outcome of its first phase and of
    the tool layer. *)
Lemma registerWallet_unfold user provider w :
  registerWallet user provider w =
  match registerWallet_record user provider w with
  | (Ok userWallet, w1) =>
      let walletAddress := stored_address (walletProvider userWallet) in
      let '(entries, result) :=
        goatInitializeTools (goatOptions provider walletAddress) in
      (Ok true,
       mkWorld (env w1)
         (((logs w1 ++ entries)
           ++ [match result with
               | Ok _ => mkLog info ("GOAT tools initialized for user " ++ user)
                               None
               | Throw e =>
                   mkLog error
                     ("Failed to initialize GOAT tools for user " ++ user ++ ":")
                     (Some e)
               end])
          ++ [mkLog info ("Wallet registered for user " ++ user
                          ++ " with address " ++ show walletAddress) None])
         (<[user := userWallet]> (wallets w1)))
  | (Throw e, w1) =>
      (Ok false,
       mkWorld (env w1)
         (logs w1 ++ [mkLog error
                        ("Failed to register wallet for user " ++ user ++ ":")
                        (Some e)])
         (wallets w1))
  end.
Proof.
  unfold registerWallet. unfold try_catch at 1. unfold bind at 1.
  destruct (registerWallet_record user provider w) as [[userWallet|e] w1];
    [|reflexivity].
  unfold initializeTools, bind, try_catch, get_wallets, put_wallets,
    logger_info, logger_error, log, lift, ret. cbn.
  destruct (goatInitializeTools _) as [entries [[]|e]]; reflexivity.
Qed.


(** *** With the [crypto] module of Node *)

Context {N : NodeCrypto R}.



End RegisterFacts.



(** C10: when the first phase of [registerWallet] throws, whether in the
    address derivation or in an encryption, [registerWallet] returns false,
    logs the error, and the registry is what it was before the call. *)
Theorem registerWallet_failure_keeps_registry
    {R : Runtime} (user : string) (provider : WalletProvider)
    (w w1 : World) (e : JsError) :
  WalletManager.registerWallet_record user provider w = (Throw e, w1) ->
  WalletManager.registerWallet user provider w
  = (Ok false,
     mkWorld (env w1)
       (logs w1 ++ [mkLog error
                      ("Failed to register wallet for user " ++ user ++ ":")
                      (Some e)])
       (wallets w))
  /\ wallets (WalletManager.registerWallet user provider w).2 = wallets w.
Proof.
  intros Hrec.
  pose proof (registerWallet_record_wallets user provider w) as Hkeep.
  rewrite registerWallet_unfold. rewrite Hrec in Hkeep |- *. cbn in Hkeep.
  by rewrite Hkeep.
Qed.

Lemma registerWallet_failure_keeps_registry_witness :
  let w := TestRuntime.corrupt_world in
  let bad := {| type := evm; privateKey := "not-a-key";
                rpcUrl := "https://rpc.example"; crossmintApiKey := None;
                address := None; chainId := None |} in
  wallets w !! "u" = Some TestRuntime.record_u
  /\ (WalletManager.registerWallet "u" bad w).1 = Ok false
  /\ wallets (WalletManager.registerWallet "u" bad w).2 = wallets w
  /\ (WalletManager.registerWallet "u" TestRuntime.provider0 w).1 = Ok false
  /\ wallets (WalletManager.registerWallet "u" TestRuntime.provider0 w).2
     = wallets w.
Proof.
  intros w bad.
  split; [apply lookup_insert_eq|].
  assert ((WalletManager.registerWallet_record "u" bad w).1
          = Throw (mkError "invalid private key")) as Hrec
    by (vm_compute; reflexivity).
  apply pair_of_fst in Hrec.
  destruct (registerWallet_failure_keeps_registry "u" bad w _ _ Hrec)
    as [Hresult Hkeep].
  assert ((WalletManager.registerWallet_record "u" TestRuntime.provider0 w).1
          = Throw (mkError "Failed to encrypt data")) as Hrec0
    by (vm_compute; reflexivity).
  apply pair_of_fst in Hrec0.
  destruct (registerWallet_failure_keeps_registry "u" TestRuntime.provider0
              w _ _ Hrec0) as [Hresult0 Hkeep0].
  split; [by rewrite Hresult|]. split; [exact Hkeep|].
  split; [by rewrite Hresult0|exact Hkeep0].
Defined.

Section RegisterFailures.
Context {R : Runtime}.
Import SecurityManager WalletManager.

(** The first phase throws when [ethers] rejects the private key of an EVM
    provider that comes without an address. *)
Lemma registerWallet_record_derivation_throws user provider w e :
  type provider = evm ->
  JsString.truthy_opt (address provider) = false ->
  ethersWalletAddress (privateKey provider) = Throw e ->
  registerWallet_record user provider w = (Throw e, w).
Proof.
  intros Htype Haddr Hder. unfold registerWallet_record, bind, lift.
  by rewrite Htype, Haddr, Hder.
Qed.

(** The first phase throws when the encryption of the private key does. *)
Lemma registerWallet_record_encrypt_throws user provider w e :
  type provider <> evm \/ JsString.truthy_opt (address provider) = true ->
  (encrypt (privateKey provider) w).1 = Throw e ->
  (registerWallet_record user provider w).1 = Throw e.
Proof.
  intros Hskip Henc. unfold registerWallet_record.
  assert ((match type provider with evm => true | _ => false end
           && negb (JsString.truthy_opt (address provider))) = false) as ->.
  { destruct Hskip as [H | ->]; [by destruct (type provider)|].
    apply andb_false_r. }
  unfold bind at 1. unfold ret at 1. unfold bind at 1.
  destruct (encrypt (privateKey provider) w) as [[c|e'] w1]; [done|].
  cbn in Henc. by injection Henc as ->.
Qed.

(** [getWallet] on an active record, when a stored secret does not
    decrypt. *)
Lemma getWallet_decrypt_throws user w userWallet e :
  wallets w !! user = Some userWallet ->
  isActive userWallet = true ->
  (decrypt_value (stored_privateKey (walletProvider userWallet)) w).1
    = Throw e
  \/ (exists k, stored_crossmintApiKey (walletProvider userWallet) = Some k
                /\ JsString.truthy k = true
                /\ (decrypt k w).1 = Throw e) ->
  exists cause,
    getWallet user w
    = (Ok None,
       mkWorld (env w)
         ((logs w ++ [mkLog error "Decryption failed:" (Some cause)])
          ++ [mkLog error ("Failed to get wallet for user " ++ user ++ ":")
                    (Some (mkError "Failed to decrypt data"))])
         (wallets w)).
Proof.
  intros Hstored Hactive Hfail.
  unfold getWallet, try_catch. unfold bind at 1. unfold get_wallets.
  rewrite Hstored, Hactive. cbn [negb]. unfold bind at 1.
  destruct (decrypt_value_cases
              (stored_privateKey (walletProvider userWallet)) w)
    as [[plain Hok]|[cause Hthrow]].
  - rewrite Hok. rewrite Hok in Hfail.
    destruct Hfail as [?|(k & Hk & Htruthy & Hfail)]; [done|].
    rewrite Hk, Htruthy. unfold bind at 1. unfold bind at 1.
    destruct (decrypt_cases k w) as [[plain' Hok']|[cause Hthrow]];
      rewrite ?Hok' in Hfail; [done|].
    rewrite Hthrow. by exists cause.
  - rewrite Hthrow. by exists cause.
Qed.

End RegisterFailures.

(** C1, as the code has it: for a user whose active record holds a private
    key, or a Crossmint key, that [decrypt] rejects, [getWallet] catches the
    error and returns null, as it does for a missing or removed wallet; the
    failure is logged, no secret is returned, and the registry (and with it
    [lastUsed]) is unchanged. *)
Theorem getWallet_decrypt_failure_returns_null
    {R : Runtime} (user : string) (w : World) (userWallet : UserWallet)
    (e : JsError) :
  wallets w !! user = Some userWallet ->
  isActive userWallet = true ->
  (SecurityManager.decrypt_value
     (stored_privateKey (walletProvider userWallet)) w).1
    = Throw e
  \/ (exists k, stored_crossmintApiKey (walletProvider userWallet) = Some k
                /\ JsString.truthy k = true
                /\ (SecurityManager.decrypt k w).1 = Throw e) ->
  let result := WalletManager.getWallet user w in
  result.1 = Ok None
  /\ wallets result.2 = wallets w
  /\ In (mkLog error ("Failed to get wallet for user " ++ user ++ ":")
               (Some (mkError "Failed to decrypt data")))
        (logs result.2).
Proof.
  intros Hstored Hactive Hfail result. subst result.
  destruct (getWallet_decrypt_throws user w userWallet e Hstored Hactive Hfail)
    as [cause ->].
  cbn [fst snd wallets logs]. repeat split.
  apply in_or_app. right. by left.
Qed.

Lemma getWallet_decrypt_failure_returns_null_witness :
  (SecurityManager.decrypt TestRuntime.tampered TestRuntime.corrupt_world).1
  = Throw (mkError "Failed to decrypt data")
  /\ (WalletManager.getWallet "u" TestRuntime.corrupt_world).1 = Ok None
  /\ wallets (WalletManager.getWallet "u" TestRuntime.corrupt_world).2
     = wallets TestRuntime.corrupt_world.
Proof.
  assert (wallets TestRuntime.corrupt_world !! "u"
          = Some TestRuntime.record_u) as Hstored by apply lookup_insert_eq.
  assert ((SecurityManager.decrypt TestRuntime.tampered
             TestRuntime.corrupt_world).1
          = Throw (mkError "Failed to decrypt data")) as Hfail
    by (vm_compute; reflexivity).
  destruct (getWallet_decrypt_failure_returns_null "u"
              TestRuntime.corrupt_world _ _ Hstored eq_refl (or_introl Hfail))
    as (H1 & H2 & _).
  split; [exact Hfail|]. split; [exact H1|exact H2].
Defined.

(** C1, as stated, fails: the active record of user [u] holds a blob that
    [decrypt] rejects, and [getWallet] returns null, which is a value and
    not an error. *)
Lemma getWallet_decrypt_failure_counterexample :
  let w := TestRuntime.corrupt_world in
  WalletManager.hasWallet "u" (wallets w) = true
  /\ (exists e, (SecurityManager.decrypt TestRuntime.tampered w).1 = Throw e)
  /\ (WalletManager.getWallet "u" w).1 = Ok None
  /\ (forall e, (WalletManager.getWallet "u" w).1 <> Throw e).
Proof.
  cbv zeta. split; [vm_compute; reflexivity|].
  split; [eexists; vm_compute; reflexivity|].
  split; [vm_compute; reflexivity|].
  intros e. vm_compute. discriminate.
Qed.

(** ** Validation of a provider *)

Section Validation.
Import WalletManager.

Lemma substring_all (s : string) : String.substring 0 (String.length s) s = s.
Proof. induction s as [|c s IH]; cbn; [done|]. by rewrite IH. Qed.

(** A leading [0x] is the first occurrence, so it is the one replaced. *)
Lemma replace_0x_prefix (rest : string) :
  JsString.replace "0x" EmptyString (String "0" (String "x" rest)) = rest.
Proof.
  cbn. replace (String.prefix EmptyString rest) with true by (by destruct rest).
  rewrite Nat.sub_0_r. apply substring_all.
Qed.

Lemma prefix_cons (a b : ascii) (s1 s2 : string) :
  String.prefix (String a s1) (String b s2)
  = if ascii_dec a b then String.prefix s1 s2 else false.
Proof. reflexivity. Qed.

Lemma prefix_0x_digits (s : string) :
  JsString.forallb Hex.is_digit s = true -> String.prefix "0x" s = false.
Proof.
  destruct s as [|c [|c' s']]; [done| |].
  - intros _. rewrite prefix_cons. by destruct (ascii_dec "0" c).
  - intros H. rewrite prefix_cons. destruct (ascii_dec "0" c); [|done].
    rewrite prefix_cons. destruct (ascii_dec "x" c') as [<-|]; [|done].
    cbn in H. by rewrite andb_false_r in H.
Qed.

Lemma prefix_0x_inv (s : string) :
  String.prefix "0x" s = true ->
  exists rest, s = String "0" (String "x" rest).
Proof.
  destruct s as [|c [|c' s']].
  - intros H. discriminate H.
  - rewrite prefix_cons. destruct (ascii_dec "0" c); intros H; discriminate H.
  - rewrite !prefix_cons.
    destruct (ascii_dec "0" c) as [<-|]; [|intros H; discriminate H].
    destruct (ascii_dec "x" c') as [<-|]; [|intros H; discriminate H].
    intros _. by exists s'.
Qed.

(** Hexadecimal digits hold no [0x], so nothing is replaced in them. *)
Lemma replace_0x_digits (s : string) :
  JsString.forallb Hex.is_digit s = true -> JsString.replace "0x" EmptyString s = s.
Proof.
  induction s as [|c s IH]; [done|].
  intros H. pose proof (prefix_0x_digits _ H) as Hprefix.
  cbn in H. apply andb_prop in H as [Hc Hs].
  change (JsString.replace "0x" EmptyString (String c s))
    with (if String.prefix "0x" (String c s)
          then EmptyString ++ String.substring (String.length "0x")
                       (String.length (String c s) - String.length "0x") (String c s)
          else String c (JsString.replace "0x" EmptyString s)).
  by rewrite Hprefix, (IH Hs).
Qed.

(** What [validateWalletProvider] computes for an EVM provider. *)
Lemma validateWalletProvider_evm (provider : WalletProvider) :
  type provider = evm ->
  validateWalletProvider provider
  = JsString.truthy (privateKey provider)
    && JsString.truthy (rpcUrl provider)
    && (let key := JsString.replace "0x" EmptyString (privateKey provider) in
        Nat.eqb (String.length key) 64 && JsString.forallb Hex.is_digit key).
Proof.
  intros Htype. unfold validateWalletProvider, validateEvmWallet.
  rewrite Htype.
  by destruct (JsString.truthy (privateKey provider)),
              (JsString.truthy (rpcUrl provider)).
Qed.

(** Every key of the shape the specification gives is accepted. *)
Lemma validateWalletProvider_evm_complete (provider : WalletProvider) :
  type provider = evm ->
  JsString.truthy (rpcUrl provider) = true ->
  Spec.evm_key (privateKey provider) = true ->
  validateWalletProvider provider = true.
Proof.
  intros Htype Hrpc Hkey. rewrite validateWalletProvider_evm by done.
  rewrite Hrpc. unfold Spec.evm_key, Spec.strip_0x_prefix in Hkey. cbv zeta.
  destruct (String.prefix "0x" (privateKey provider)) eqn:Hprefix.
  - apply prefix_0x_inv in Hprefix as [rest Hpk]. rewrite Hpk in Hkey |- *.
    rewrite replace_0x_prefix.
    change (String.substring 2
              (String.length (String "0" (String "x" rest)) - 2)
              (String "0" (String "x" rest)))
      with (String.substring 0 (String.length rest - 0) rest) in Hkey.
    rewrite Nat.sub_0_r, substring_all in Hkey.
    by rewrite Hkey.
  - apply andb_prop in Hkey as [Hlen Hdigits].
    rewrite (replace_0x_digits _ Hdigits), Hlen, Hdigits.
    by destruct (privateKey provider).
Qed.

End Validation.

(** C9, at a key with [0x] in the middle: the provider is accepted although
    its key is not 64 hexadecimal characters after a leading [0x] is taken
    off (it is 66 characters long and holds an [x]); [replace('0x', '')]
    removes the first [0x] wherever it stands. *)
Theorem validateWalletProvider_accepts_inner_0x :
  type TestRuntime.provider_inner_0x = evm
  /\ Spec.evm_key (privateKey TestRuntime.provider_inner_0x) = false
  /\ WalletManager.validateWalletProvider TestRuntime.provider_inner_0x = true.
Proof. repeat split; vm_compute; reflexivity. Qed.

(** ** What the calls do to the registry *)

Section Calls.
Context {R : Runtime}.
Import SecurityManager WalletManager.

Lemma getWallet_unfold user w :
  getWallet user w =
  match wallets w !! user with
  | Some userWallet =>
      if isActive userWallet
      then try_catch (getWallet_active user (wallets w) userWallet)
             (fun e =>
                logger_error ("Failed to get wallet for user " ++ user ++ ":") e ;;
                ret None) w
      else (Ok None, w)
  | None => (Ok None, w)
  end.
Proof.
  unfold getWallet, try_catch. unfold bind at 1. unfold get_wallets.
  destruct (wallets w !! user) as [userWallet|]; [|done].
  unfold getWallet_active, try_catch.
  destruct (isActive userWallet); reflexivity.
Qed.

(** What [getWallet] does: it returns null and leaves the registry as it
    is, or it returns a copy of the provider of the active record of the
    user, with two secrets in it, and stamps the record. *)
Lemma getWallet_cases user w :
  (exists w', getWallet user w = (Ok None, w') /\ wallets w' = wallets w)
  \/ (exists userWallet plainKey plainApiKey,
        wallets w !! user = Some userWallet
        /\ isActive userWallet = true
        /\ decrypt_value (stored_privateKey (walletProvider userWallet)) w
           = (Ok plainKey, w)
        /\ getWallet user w
           = (Ok (Some {| stored_type := stored_type (walletProvider userWallet);
                          stored_privateKey := Some plainKey;
                          stored_rpcUrl :=
                            stored_rpcUrl (walletProvider userWallet);
                          stored_crossmintApiKey := plainApiKey;
                          stored_address :=
                            stored_address (walletProvider userWallet);
                          stored_chainId :=
                            stored_chainId (walletProvider userWallet) |}),
              mkWorld (newDate (env w)).2 (logs w)
                (<[user := {| userId := userId userWallet;
                              walletProvider := walletProvider userWallet;
                              isActive := isActive userWallet;
                              createdAt := createdAt userWallet;
                              lastUsed := (newDate (env w)).1 |}]> (wallets w)))).
Proof.
  rewrite getWallet_unfold.
  destruct (wallets w !! user) as [userWallet|] eqn:Hstored;
    [|left; by eexists].
  destruct (isActive userWallet) eqn:Hactive; [|left; by eexists].
  unfold try_catch, getWallet_active. cbv zeta.
  destruct (decrypt_value_cases
              (stored_privateKey (walletProvider userWallet)) w)
    as [[plainKey Hkey]|[cause Hkey]].
  2: { left. rewrite (bind_throw _ _ _ _ _ Hkey). eexists; split; reflexivity. }
  rewrite (bind_ok _ _ _ _ _ Hkey).
  destruct (stored_crossmintApiKey (walletProvider userWallet)) as [k|] eqn:Hk.
  - destruct (JsString.truthy k) eqn:Htruthy.
    + destruct (decrypt_cases k w) as [[plainApiKey Hapi]|[cause Hapi]].
      * right. exists userWallet, plainKey, (Some plainApiKey).
        rewrite Hactive. do 3 (split; [done|]).
        rewrite (bind_ok _ _ _ _ w (bind_ok _ _ _ _ _ Hapi)).
        unfold bind, with_env, put_wallets, ret.
        by destruct (newDate (env w)).
      * left.
        rewrite (bind_throw _ _ _ _ _ (bind_throw _ _ _ _ _ Hapi)).
        eexists; split; reflexivity.
    + right. exists userWallet, plainKey, None.
      rewrite Hactive. do 3 (split; [done|]).
      unfold bind, with_env, put_wallets, ret. by destruct (newDate (env w)).
  - right. exists userWallet, plainKey, None.
    rewrite Hactive. do 3 (split; [done|]).
    unfold bind, with_env, put_wallets, ret. by destruct (newDate (env w)).
Qed.

Lemma updateWallet_unfold user updates w :
  updateWallet user updates w =
  match wallets w !! user with
  | Some userWallet =>
      if isActive userWallet
      then try_catch (updateWallet_active user (wallets w) userWallet updates)
             (fun e =>
                logger_error ("Failed to update wallet for user " ++ user ++ ":")
                             e ;;
                ret false) w
      else (Ok false, w)
  | None => (Ok false, w)
  end.
Proof.
  unfold updateWallet, try_catch. unfold bind at 1. unfold get_wallets.
  destruct (wallets w !! user) as [userWallet|]; [|done].
  unfold updateWallet_active, try_catch.
  destruct (isActive userWallet); reflexivity.
Qed.

(** A secret that is not sent to [encrypt] stays as it is. *)
Lemma seal_update_falsy (secret : Property string) (w : World) :
  truthy_secret secret = false -> seal_update secret w = (Ok secret, w).
Proof.
  unfold seal_update, truthy_secret.
  destruct secret as [|[plain|]]; [done| |done]. by intros ->.
Qed.

(** A secret that is sent to [encrypt] is what [encrypt] makes of it. *)
Lemma seal_update_truthy (secret : Property string) (w : World) :
  truthy_secret secret = true ->
  exists plain,
    secret = Present (Some plain)
    /\ seal_update secret w
       = match encrypt plain w with
         | (Ok c, w1) => (Ok (Present (Some c)), w1)
         | (Throw e, w1) => (Throw e, w1)
         end.
Proof.
  unfold seal_update, truthy_secret.
  destruct secret as [|[plain|]]; [done| |done]. intros ->.
  exists plain. split; [done|]. unfold bind, ret.
  by destruct (encrypt plain w) as [[c|e] w1].
Qed.

(** One [if] of [updateWallet]: it gives a secret for the spread, or it
    throws; the registry is not touched. *)
Lemma seal_update_cases (secret : Property string) (w : World) :
  (exists key w1, seal_update secret w = (Ok key, w1)
                  /\ wallets w1 = wallets w)
  \/ (exists e w1, seal_update secret w = (Throw e, w1)
                   /\ wallets w1 = wallets w
                   /\ truthy_secret secret = true).
Proof.
  destruct (truthy_secret secret) eqn:Htruthy.
  - destruct (seal_update_truthy secret w Htruthy) as (plain & _ & ->).
    pose proof (encrypt_wallets plain w) as Hw.
    destruct (encrypt plain w) as [[c|e] w1]; cbn in Hw.
    + left. by eexists _, _.
    + right. by eexists _, _.
  - left. rewrite seal_update_falsy by done. by eexists _, _.
Qed.

(** What [updateWallet] does to the registry: nothing, or it replaces the
    provider of the active record of the user by the spread. *)
Lemma updateWallet_cases user updates w :
  (exists r w', updateWallet user updates w = (Ok r, w')
                /\ wallets w' = wallets w
                /\ (r = true -> False))
  \/ (exists userWallet key apiKey w',
        wallets w !! user = Some userWallet
        /\ isActive userWallet = true
        /\ updateWallet user updates w = (Ok true, w')
        /\ wallets w'
           = <[user := {| userId := userId userWallet;
                          walletProvider :=
                            merge (walletProvider userWallet)
                              {| new_type := new_type updates;
                                 new_privateKey := key;
                                 new_rpcUrl := new_rpcUrl updates;
                                 new_crossmintApiKey := apiKey;
                                 new_address := new_address updates;
                                 new_chainId := new_chainId updates |};
                          isActive := isActive userWallet;
                          createdAt := createdAt userWallet;
                          lastUsed := lastUsed userWallet |}]> (wallets w)).
Proof.
  rewrite updateWallet_unfold.
  destruct (wallets w !! user) as [userWallet|] eqn:Hstored;
    [|left; by exists false, w].
  destruct (isActive userWallet) eqn:Hactive; [|left; by exists false, w].
  unfold try_catch, updateWallet_active.
  destruct (seal_update_cases (new_privateKey updates) w)
    as [(key & w1 & Hstep1 & Hw1)|(e & w1 & Hstep1 & Hw1 & _)].
  2: { left. rewrite (bind_throw _ _ _ _ _ Hstep1). eexists false, _.
       split; [reflexivity|]. by split. }
  rewrite (bind_ok _ _ _ _ _ Hstep1).
  destruct (seal_update_cases (new_crossmintApiKey updates) w1)
    as [(apiKey & w2 & Hstep2 & Hw2)|(e & w2 & Hstep2 & Hw2 & _)].
  2: { left. rewrite (bind_throw _ _ _ _ _ Hstep2). eexists false, _.
       split; [reflexivity|]. split; [cbn; by rewrite Hw2, Hw1|done]. }
  rewrite (bind_ok _ _ _ _ _ Hstep2).
  right. exists userWallet, key, apiKey. eexists.
  split; [done|]. split; [done|].
  rewrite Hactive. split; reflexivity.
Qed.

(** What any call does to the registry: nothing, or it writes the record of
    the user the call is about. *)
Lemma after_wallets (w : World) (call : Call) :
  wallets (after w call) = wallets w
  \/ exists x, wallets (after w call) = <[subject call := x]> (wallets w).
Proof.
  destruct call as [user provider|user|user|user updates]; cbn [after subject].
  - rewrite registerWallet_unfold.
    pose proof (registerWallet_record_wallets user provider w) as Hkeep.
    destruct (registerWallet_record user provider w) as [[userWallet|e] w1];
      cbn in Hkeep.
    + right. cbv zeta. destruct (goatInitializeTools _) as [entries result].
      cbn [snd wallets]. rewrite Hkeep. by eexists.
    + left. by cbn [snd wallets].
  - destruct (getWallet_cases user w)
      as [(w' & -> & Hw')|(userWallet & pk & ck & _ & _ & _ & ->)].
    + by left.
    + right. by eexists.
  - destruct (wallets w !! user) as [userWallet|] eqn:Hstored.
    + rewrite (removeWallet_stored _ _ _ Hstored). right. by eexists.
    + rewrite (removeWallet_missing _ _ Hstored). by left.
  - destruct (updateWallet_cases user updates w)
      as [(r & w' & -> & Hw' & _)
         |(userWallet & key & apiKey & w' & _ & _ & -> & Hw')].
    + by left.
    + right. cbn [snd]. rewrite Hw'. by eexists.
Qed.

(** What a call leaves of the record of its own user: the activity flag can
    only be set by [registerWallet]. *)
Lemma after_hasWallet (w : World) (call : Call) (user : string) :
  hasWallet user (wallets w) = false ->
  (forall provider, call <> CallRegister user provider) ->
  hasWallet user (wallets (after w call)) = false.
Proof.
  intros Hnone Hcall.
  destruct (decide (subject call = user)) as [Hsub|Hne].
  2: { unfold hasWallet in *.
       destruct (after_wallets w call) as [->|[x ->]]; [done|].
       by rewrite lookup_insert_ne. }
  unfold hasWallet in *.
  destruct call as [u provider|u|u|u updates]; cbn [after subject] in *;
    subst u.
  - by destruct (Hcall provider).
  - destruct (getWallet_cases user w)
      as [(w' & -> & Hw')|(userWallet & pk & ck & Hs & Ha & _)].
    + cbn [snd]. by rewrite Hw'.
    + by rewrite Hs, Ha in Hnone.
  - destruct (wallets w !! user) as [userWallet|] eqn:Hstored.
    + rewrite (removeWallet_stored _ _ _ Hstored). cbn [snd wallets].
      by rewrite lookup_insert_eq.
    + rewrite (removeWallet_missing _ _ Hstored). cbn [snd].
      by rewrite Hstored.
  - destruct (updateWallet_cases user updates w)
      as [(r & w' & -> & Hw' & _)
         |(userWallet & key & apiKey & w' & Hs & Ha & _)].
    + cbn [snd]. by rewrite Hw'.
    + by rewrite Hs, Ha in Hnone.
Qed.

(** *** With the [crypto] module of Node *)

Context {N : NodeCrypto R}.

(** [getWallet] returns null, in any state of the registry, and leaves the
    registry as it is. *)
Lemma getWallet_null user w :
  exists w', getWallet user w = (Ok None, w') /\ wallets w' = wallets w.
Proof.
  destruct (getWallet_cases user w)
    as [H|(userWallet & pk & ck & _ & _ & Hkey & _)]; [done|].
  destruct (decrypt_value_throws
              (stored_privateKey (walletProvider userWallet)) w)
    as [cause Hthrow].
  by rewrite Hthrow in Hkey.
Qed.

(** [updateWallet] returns false, and leaves the registry as it is, when
    the update carries a secret to encrypt. *)
Lemma updateWallet_secret user updates w :
  truthy_secret (new_privateKey updates) = true
  \/ truthy_secret (new_crossmintApiKey updates) = true ->
  exists w', updateWallet user updates w = (Ok false, w')
             /\ wallets w' = wallets w.
Proof.
  intros Hsecret. rewrite updateWallet_unfold.
  destruct (wallets w !! user) as [userWallet|] eqn:Hstored;
    [|by exists w].
  destruct (isActive userWallet) eqn:Hactive; [|by exists w].
  unfold try_catch, updateWallet_active.
  assert (forall secret w0,
             truthy_secret secret = true ->
             exists e w1, seal_update secret w0 = (Throw e, w1)
                          /\ wallets w1 = wallets w0) as Hseal.
  { intros secret w0 Htruthy.
    destruct (seal_update_truthy secret w0 Htruthy) as (plain & _ & ->).
    destruct (encrypt_throws plain w0) as [cause ->]. by eexists _, _. }
  destruct (truthy_secret (new_privateKey updates)) eqn:Hkey.
  - destruct (Hseal _ w Hkey) as (e & w1 & Hstep & Hw1).
    rewrite (bind_throw _ _ _ _ _ Hstep). eexists. by split.
  - destruct Hsecret as [?|Hapi]; [done|].
    rewrite (bind_ok _ _ _ _ _ (seal_update_falsy _ w Hkey)).
    destruct (Hseal _ w Hapi) as (e & w1 & Hstep & Hw1).
    rewrite (bind_throw _ _ _ _ _ Hstep). eexists. by split.
Qed.



End Calls.



(** * Further properties of the code *)

(** ** The cipher, beyond the blob checks *)

Section CipherMore.
Context {R : Runtime}.
Import SecurityManager.

Lemma Hex_encode_length (buf : list byte) :
  String.length (Hex.encode buf) = (2 * length buf)%nat.
Proof. induction buf as [|b rest IH]; cbn; [done|]. rewrite IH. lia. Qed.

(** [(a + sep + b).split(sep)] is [a.split(sep)] followed by
    [b.split(sep)]. *)
Lemma split_app_sep (sep : ascii) (a b : string) :
  JsString.split sep (a ++ String sep b)
  = (JsString.split sep a ++ JsString.split sep b)%list.
Proof.
  induction a as [|c a IH].
  - change (EmptyString ++ String sep b) with (String sep b). cbn.
    by rewrite Ascii.eqb_refl.
  - change (String c a ++ String sep b) with (String c (a ++ String sep b)).
    cbn. rewrite IH. destruct (Ascii.eqb c sep); [done|].
    pose proof (split_nonempty sep a).
    by destruct (JsString.split sep a).
Qed.

(** [decrypt] reads its argument only through the first three components. *)
Lemma decrypt_same_parts (data data' : string) (w : World) :
  (forall i, (i < 3)%nat ->
             JsString.split ":" data' !! i = JsString.split ":" data !! i) ->
  decrypt data' w = decrypt data w.
Proof.
  intros H. unfold decrypt.
  by rewrite (H 0%nat), (H 1%nat), (H 2%nat) by lia.
Qed.

End CipherMore.

(** X3: [decrypt] ignores whatever follows a fourth colon: for every string
    that already has three components, appending a colon and any text gives
    the same result, the same log and the same state. *)
Theorem decrypt_ignores_extra_components
    {R : Runtime} (data junk : string) (w : World) :
  (3 <= length (JsString.split ":" data))%nat ->
  SecurityManager.decrypt (data ++ ":" ++ junk) w
  = SecurityManager.decrypt data w.
Proof.
  intros Hlen. apply decrypt_same_parts. intros i Hi.
  change (data ++ ":" ++ junk) with (data ++ String ":" junk).
  rewrite split_app_sep. apply lookup_app_l. lia.
Qed.

Lemma decrypt_ignores_extra_components_witness :
  SecurityManager.decrypt ("a:b:c" ++ ":" ++ "anything:else")
    TestRuntime.world0
  = SecurityManager.decrypt "a:b:c" TestRuntime.world0.
Proof.
  apply (decrypt_ignores_extra_components "a:b:c" "anything:else"
           TestRuntime.world0).
  vm_compute; lia.
Defined.

(** ** The rate limiter over many calls *)

Section RateLimiterMore.
Import SecurityManager.
Implicit Types (m : gmap string RateLimit) (user : string).

Lemma checkRateLimits_cons now user limit windowMs rest m :
  (checkRateLimits ((now, user, limit, windowMs) :: rest) m).1
  = (checkRateLimit now user limit windowMs m).1
    :: (checkRateLimits rest (checkRateLimit now user limit windowMs m).2).1.
Proof.
  cbn [checkRateLimits].
  destruct (checkRateLimit now user limit windowMs m) as [b next].
  cbn [fst snd]. by destruct (checkRateLimits rest next).
Qed.

(** Calls of one user while its counter is live: admitted until the limit
    is reached, rejected from then on. *)
Lemma checkRateLimits_live user limit windowMs m c (times : list Z) :
  m !! user = Some c ->
  Forall (fun t => t <= resetTime c) times ->
  (checkRateLimits (map (fun t => (t, user, limit, windowMs)) times) m).1
  = (repeat true (min (length times) (Z.to_nat (limit - count c)))
     ++ repeat false (length times - Z.to_nat (limit - count c)))%list.
Proof.
  intros Hc Htimes. revert m c Hc Htimes.
  induction times as [|t times IH]; intros m c Hc Htimes; [done|].
  apply Forall_cons in Htimes as [Ht Htimes].
  cbn [map]. rewrite checkRateLimits_cons.
  destruct (Z_lt_ge_dec (count c) limit) as [Hlt|Hge].
  - rewrite (checkRateLimit_below _ _ _ _ _ c) by done. cbn [fst snd].
    rewrite (IH _ (mkRateLimit (count c + 1) (resetTime c)));
      [|apply lookup_insert_eq|done].
    cbn [count resetTime length].
    replace (Z.to_nat (limit - count c))
      with (S (Z.to_nat (limit - (count c + 1)))) by lia.
    reflexivity.
  - rewrite (checkRateLimit_reached _ _ _ _ _ c) by done. cbn [fst snd].
    rewrite (IH m c Hc Htimes).
    replace (Z.to_nat (limit - count c)) with 0%nat by lia.
    cbn [length]. by rewrite !Nat.min_0_r, !Nat.sub_0_r.
Qed.

(** A call changes the entry of its user only. *)
Lemma checkRateLimit_other now user other limit windowMs m :
  user <> other ->
  (checkRateLimit now user limit windowMs m).2 !! other = m !! other.
Proof.
  intros Hne. unfold checkRateLimit.
  destruct (m !! user) as [c|]; repeat case_match; cbn;
    by rewrite ?lookup_insert_ne.
Qed.

(** A call reads the entry of its user only. *)
Lemma checkRateLimit_local now user limit windowMs m1 m2 :
  m1 !! user = m2 !! user ->
  (checkRateLimit now user limit windowMs m1).1
  = (checkRateLimit now user limit windowMs m2).1
  /\ (checkRateLimit now user limit windowMs m1).2 !! user
     = (checkRateLimit now user limit windowMs m2).2 !! user.
Proof.
  intros H. unfold checkRateLimit. rewrite H.
  destruct (m2 !! user) as [c|] eqn:Hc; repeat case_match; cbn;
    by rewrite ?lookup_insert_eq, ?H, ?Hc.
Qed.

Lemma verdicts_of_local user calls m1 m2 :
  m1 !! user = m2 !! user ->
  verdicts_of user calls (checkRateLimits calls m1).1
  = (checkRateLimits (calls_of user calls) m2).1.
Proof.
  revert m1 m2.
  induction calls as [|[[[now u] limit] windowMs] rest IH];
    intros m1 m2 H; [done|].
  rewrite checkRateLimits_cons. unfold verdicts_of, calls_of.
  cbn [zip zip_with]. rewrite !filter_cons. cbn [fst].
  change (call_user (now, u, limit, windowMs)) with u.
  destruct (decide (u = user)) as [->|Hne].
  - cbn [map snd]. rewrite checkRateLimits_cons.
    destruct (checkRateLimit_local now user limit windowMs m1 m2 H)
      as [Hres Hnext].
    rewrite Hres. f_equal. by apply IH.
  - apply IH. by rewrite checkRateLimit_other.
Qed.

End RateLimiterMore.

(** X4: a burst of calls of one user. When the first call finds no live
    counter and the others come no later than the reset time it sets, the
    first is admitted, then as many as the limit leaves ([limit - 1], none
    when the limit is 1 or less), and every further call is rejected. *)
Theorem checkRateLimit_burst
    (now limit windowMs : Z) (user : string) (times : list Z)
    (m : gmap string SecurityManager.RateLimit) :
  (forall c, m !! user = Some c -> now > SecurityManager.resetTime c) ->
  Forall (fun t => t <= now + windowMs) times ->
  (SecurityManager.checkRateLimits
     ((now, user, limit, windowMs)
      :: map (fun t => (t, user, limit, windowMs)) times) m).1
  = true :: (repeat true (min (length times) (Z.to_nat (limit - 1)))
             ++ repeat false (length times - Z.to_nat (limit - 1)))%list.
Proof.
  intros Hfresh Htimes. rewrite checkRateLimits_cons.
  rewrite checkRateLimit_fresh by done. cbn [fst snd]. f_equal.
  by rewrite (checkRateLimits_live _ _ _ _
                (SecurityManager.mkRateLimit 1 (now + windowMs)))
    by (apply lookup_insert_eq || done).
Qed.

Lemma checkRateLimit_burst_witness :
  (SecurityManager.checkRateLimits
     ((1000, "u", 10, 60000)
      :: map (fun t => (t, "u", 10, 60000))
           [1001; 1002; 1003; 1004; 1005; 1006; 1007; 1008; 1009; 1010;
            1011; 61000]) ∅).1
  = [true; true; true; true; true; true; true; true; true; true;
     false; false; false].
Proof.
  apply (checkRateLimit_burst 1000 10 60000 "u"
           [1001; 1002; 1003; 1004; 1005; 1006; 1007; 1008; 1009; 1010;
            1011; 61000] ∅).
  - intros c Hc. by rewrite lookup_empty in Hc.
  - repeat constructor; lia.
Defined.

(** X5: the limits of different users do not interfere. In any sequence of
    calls, for any users, limits and windows, the results that the calls of
    one user get are the results they would get if the calls of all other
    users were left out. *)
Theorem checkRateLimit_users_independent
    (user : string) (calls : list (Z * string * Z * Z))
    (m : gmap string SecurityManager.RateLimit) :
  verdicts_of user calls (SecurityManager.checkRateLimits calls m).1
  = (SecurityManager.checkRateLimits (calls_of user calls) m).1.
Proof. by apply verdicts_of_local. Qed.

(** X6: cleaning up twice is cleaning up once at the later time; so
    [cleanupRateLimits] is idempotent, and what it leaves are the counters
    that are not yet expired at that time. *)
Theorem cleanupRateLimits_compose
    (t1 t2 : Z) (m : gmap string SecurityManager.RateLimit) :
  SecurityManager.cleanupRateLimits t2 (SecurityManager.cleanupRateLimits t1 m)
  = SecurityManager.cleanupRateLimits (Z.max t1 t2) m
  /\ SecurityManager.cleanupRateLimits t1
       (SecurityManager.cleanupRateLimits t1 m)
     = SecurityManager.cleanupRateLimits t1 m
  /\ (forall user c,
        SecurityManager.cleanupRateLimits t1 m !! user = Some c ->
        t1 <= SecurityManager.resetTime c).
Proof.
  assert (forall a b,
             SecurityManager.cleanupRateLimits b
               (SecurityManager.cleanupRateLimits a m)
             = SecurityManager.cleanupRateLimits (Z.max a b) m) as Hcompose.
  { intros a b. apply map_eq. intros user. apply option_eq. intros c.
    rewrite !cleanupRateLimits_lookup. split.
    - intros [[Hm Ha] Hb]. split; [done|lia].
    - intros [Hm Hmax]. repeat split; [done|lia|lia]. }
  split; [apply Hcompose|]. split.
  - rewrite Hcompose. by rewrite Z.max_id.
  - intros user c Hc. apply cleanupRateLimits_lookup in Hc as [_ Hc]. lia.
Qed.

(** ** Sanitising and validating text *)

Section ChecksFacts.
Import SecurityChecks WalletManager.

Lemma sanitizeInput_allowed (s : string) :
  JsString.forallb allowed (sanitizeInput s) = true.
Proof.
  induction s as [|c s IH]; [done|]. cbn [sanitizeInput].
  destruct (denied c) eqn:Hc; [done|]. cbn [JsString.forallb].
  unfold allowed at 1. by rewrite Hc.
Qed.

Lemma sanitizeInput_id (s : string) :
  JsString.forallb allowed s = true -> sanitizeInput s = s.
Proof.
  induction s as [|c s IH]; [done|].
  cbn [JsString.forallb sanitizeInput]. unfold allowed at 1.
  destruct (denied c); [done|]. cbn [negb andb]. intros H. by rewrite IH.
Qed.

Lemma sanitizeInput_app (s t : string) :
  sanitizeInput (s ++ t) = sanitizeInput s ++ sanitizeInput t.
Proof.
  induction s as [|c s IH]; [done|].
  change (String c s ++ t) with (String c (s ++ t)). cbn [sanitizeInput].
  rewrite IH. by destruct (denied c).
Qed.

Lemma sanitizeInput_length (s : string) :
  (String.length (sanitizeInput s) <= String.length s)%nat.
Proof.
  induction s as [|c s IH]; [done|]. cbn [sanitizeInput].
  destruct (denied c); cbn [String.length]; lia.
Qed.

Lemma is_decimal_allowed (c : ascii) : is_decimal c = true -> allowed c = true.
Proof. destruct c as [[] [] [] [] [] [] [] []]; vm_compute; congruence. Qed.

Lemma is_digit_allowed (c : ascii) : Hex.is_digit c = true -> allowed c = true.
Proof. destruct c as [[] [] [] [] [] [] [] []]; vm_compute; congruence. Qed.

Lemma is_base58_allowed (c : ascii) : is_base58 c = true -> allowed c = true.
Proof. destruct c as [[] [] [] [] [] [] [] []]; vm_compute; congruence. Qed.

(** The shape of an address that [validateWalletAddress] accepts for
    [evm]. *)
Lemma validateWalletAddress_evm_inv (address : string) :
  validateWalletAddress address evm = true ->
  exists digits, address = String "0" (String "x" digits)
                 /\ String.length digits = 40%nat
                 /\ JsString.forallb Hex.is_digit digits = true.
Proof.
  unfold validateWalletAddress.
  destruct address as [|c0 [|c1 digits]]; try done.
  - by repeat case_match.
  - intros H. repeat case_match; try done; subst.
    apply andb_prop in H as [Hlen Hdigits].
    exists digits. by apply Nat.eqb_eq in Hlen.
Qed.

End ChecksFacts.

(** X7: [sanitizeInput] leaves none of the ten characters of its class in
    its result, changes nothing in a text that has none of them, is
    idempotent, works piece by piece on a concatenation, and never makes a
    text longer. *)
Theorem sanitizeInput_removes_class (s t : string) :
  JsString.forallb (fun c => negb (SecurityChecks.denied c))
    (SecurityChecks.sanitizeInput s) = true
  /\ (JsString.forallb (fun c => negb (SecurityChecks.denied c)) s = true ->
      SecurityChecks.sanitizeInput s = s)
  /\ SecurityChecks.sanitizeInput (SecurityChecks.sanitizeInput s)
     = SecurityChecks.sanitizeInput s
  /\ SecurityChecks.sanitizeInput (s ++ t)
     = SecurityChecks.sanitizeInput s ++ SecurityChecks.sanitizeInput t
  /\ (String.length (SecurityChecks.sanitizeInput s) <= String.length s)%nat.
Proof.
  split; [apply sanitizeInput_allowed|].
  split; [apply sanitizeInput_id|].
  split; [apply sanitizeInput_id, sanitizeInput_allowed|].
  split; [apply sanitizeInput_app|apply sanitizeInput_length].
Qed.

Example sanitizeInput_example :
  SecurityChecks.sanitizeInput "<b>O'Neil & co; 50% (1+1)</b>"
  = "bONeil  co 50 11/b"
  /\ N_of_ascii "034" = 34%N.
Proof. split; vm_compute; reflexivity. Qed.

(** X8: sanitising cannot spoil a valid identifier: a Discord user id that
    [validateDiscordUserId] accepts, and a wallet address that
    [validateWalletAddress] accepts for any type, come out of
    [sanitizeInput] unchanged. *)
Theorem sanitizeInput_keeps_valid (s : string) (type : WalletType) :
  SecurityChecks.validateDiscordUserId s = true
  \/ SecurityChecks.validateWalletAddress s type = true ->
  SecurityChecks.sanitizeInput s = s.
Proof.
  intros [H|H]; apply sanitizeInput_id.
  - unfold SecurityChecks.validateDiscordUserId in H.
    apply andb_prop in H as [_ H].
    revert H. apply forallb_impl, is_decimal_allowed.
  - destruct type; try done.
    + apply validateWalletAddress_evm_inv in H as (digits & -> & _ & H).
      cbn [JsString.forallb].
      change (allowed "0") with true. change (allowed "x") with true.
      cbn [andb]. revert H. apply forallb_impl, is_digit_allowed.
    + unfold SecurityChecks.validateWalletAddress in H.
      apply andb_prop in H as [_ H].
      revert H. apply forallb_impl, is_base58_allowed.
Qed.

Lemma sanitizeInput_keeps_valid_witness :
  SecurityChecks.sanitizeInput "123456789012345678" = "123456789012345678"
  /\ SecurityChecks.sanitizeInput "0xaAbbbbbbbbbbbbbbbbbbbbbbbbbbbbbbbbbbbbb0"
     = "0xaAbbbbbbbbbbbbbbbbbbbbbbbbbbbbbbbbbbbbb0".
Proof.
  split.
  - apply (sanitizeInput_keeps_valid "123456789012345678" evm).
    left. vm_compute; reflexivity.
  - apply (sanitizeInput_keeps_valid
             "0xaAbbbbbbbbbbbbbbbbbbbbbbbbbbbbbbbbbbbbb0" evm).
    right. vm_compute; reflexivity.
Defined.

Section LengthFacts.
Import SecurityChecks.

(** On text made of ASCII characters, [length] counts the bytes. *)
Lemma JsString_length_ascii (p : ascii -> bool) (s : string) :
  (forall c, p c = true -> JsString.units c = 1%nat) ->
  JsString.forallb p s = true -> JsString.length s = String.length s.
Proof.
  intros Hp. induction s as [|c s IH]; [done|].
  cbn [JsString.forallb JsString.length String.length]. intros H.
  apply andb_prop in H as [Hc Hs]. by rewrite (Hp c Hc), (IH Hs).
Qed.

Lemma is_base58_units (c : ascii) :
  is_base58 c = true -> JsString.units c = 1%nat.
Proof. destruct c as [[] [] [] [] [] [] [] []]; vm_compute; congruence. Qed.

End LengthFacts.

(** X9: addresses against private keys. A string that
    [validateWalletAddress] accepts as an EVM address is never accepted by
    [validateWalletProvider] as the private key of an EVM provider; a string
    that it accepts as a Solana address is always accepted as the private
    key of a Solana provider with an RPC URL, the check of a Solana key
    being that its [length] is 32 or more. *)
Theorem address_as_private_key (provider : WalletProvider) :
  (type provider = evm ->
   SecurityChecks.validateWalletAddress (privateKey provider) evm = true ->
   WalletManager.validateWalletProvider provider = false)
  /\ (type provider = solana ->
      SecurityChecks.validateWalletAddress (privateKey provider) solana = true ->
      JsString.truthy (rpcUrl provider) = true ->
      WalletManager.validateWalletProvider provider = true).
Proof.
  split.
  - intros Htype H. rewrite validateWalletProvider_evm by done.
    apply validateWalletAddress_evm_inv in H as (digits & -> & Hlen & _).
    rewrite replace_0x_prefix. cbv zeta. rewrite Hlen.
    change (Nat.eqb 40 64) with false. cbn [andb].
    by rewrite andb_false_r.
  - intros Htype H Hrpc.
    unfold WalletManager.validateWalletProvider,
      WalletManager.validateSolanaWallet.
    rewrite Htype, Hrpc.
    unfold SecurityChecks.validateWalletAddress in H.
    apply andb_prop in H as [H Hclass]. apply andb_prop in H as [H _].
    rewrite (JsString_length_ascii _ _ is_base58_units Hclass), H.
    by destruct (privateKey provider).
Qed.

Lemma address_as_private_key_witness :
  WalletManager.validateWalletProvider
    {| type := evm;
       privateKey := "0x4646464646464646464646464646464646464646";
       rpcUrl := "https://rpc.example"; crossmintApiKey := None;
       address := None; chainId := None |} = false
  /\ WalletManager.validateWalletProvider
       {| type := solana;
          privateKey := "4Nd1mBQtrMJVYVfKf2PJy9NZUZdTAsp7D4xWLs4gDB4T";
          rpcUrl := "https://rpc.example"; crossmintApiKey := None;
          address := None; chainId := None |} = true.
Proof.
  split.
  - apply (proj1 (address_as_private_key _)); vm_compute; reflexivity.
  - apply (proj2 (address_as_private_key _)); vm_compute; reflexivity.
Defined.

(** [length] counts UTF-16 code units: eleven characters of three bytes
    each are 33 bytes and no Solana key, 32 of them are one. *)
Example validateSolanaWallet_counts_units :
  let key n := String.concat EmptyString (repeat "€" n) in
  let provider n :=
    {| type := solana; privateKey := key n;
       rpcUrl := "https://rpc.example"; crossmintApiKey := None;
       address := None; chainId := None |} in
  String.length (key 11%nat) = 33%nat
  /\ WalletManager.validateWalletProvider (provider 11%nat) = false
  /\ WalletManager.validateWalletProvider (provider 32%nat) = true.
Proof. repeat split; vm_compute; reflexivity. Qed.

(** X10: [generateSecureRandom(n)] returns exactly [2 n] hexadecimal digits,
    and touches neither the registry nor the log. *)
Theorem generateSecureRandom_shape
    {R : Runtime} {L : RuntimeLaws R} (n : nat) (w : World) :
  exists text w',
    SecurityChecks.generateSecureRandom n w = (Ok text, w')
    /\ String.length text = (2 * n)%nat
    /\ JsString.forallb Hex.is_digit text = true
    /\ wallets w' = wallets w
    /\ logs w' = logs w.
Proof.
  unfold SecurityChecks.generateSecureRandom, bind, with_env, ret.
  pose proof (randomBytes_length n (env w)) as Hlen.
  destruct (randomBytes n (env w)) as [bytes env']. cbn in Hlen.
  eexists _, _. split; [reflexivity|].
  by rewrite Hex_encode_length, Hex_encode_digits, Hlen.
Qed.

Lemma generateSecureRandom_shape_witness :
  exists text w',
    SecurityChecks.generateSecureRandom 4 TestRuntime.world0 = (Ok text, w')
    /\ String.length text = (2 * 4)%nat
    /\ JsString.forallb Hex.is_digit text = true
    /\ wallets w' = wallets TestRuntime.world0
    /\ logs w' = logs TestRuntime.world0.
Proof.
  exact (@generateSecureRandom_shape TestRuntime.runtime TestRuntime_laws 4
           TestRuntime.world0).
Defined.

Section ValidationMore.
Import WalletManager.

Lemma replace_cons (pat rep : string) (c : ascii) (s : string) :
  JsString.replace pat rep (String c s)
  = if String.prefix pat (String c s)
    then rep ++ String.substring (String.length pat)
                  (String.length (String c s) - String.length pat)
                  (String c s)
    else String c (JsString.replace pat rep s).
Proof. reflexivity. Qed.

(** Taking the first [0x] out leaves the length or takes two off. *)
Lemma replace_0x_length (s : string) :
  String.length (JsString.replace "0x" EmptyString s) = String.length s
  \/ String.length s
     = (String.length (JsString.replace "0x" EmptyString s) + 2)%nat.
Proof.
  induction s as [|c s IH]; [by left|].
  destruct (String.prefix "0x" (String c s)) eqn:Hprefix.
  - apply prefix_0x_inv in Hprefix as [rest Heq]. rewrite Heq.
    rewrite replace_0x_prefix. right. cbn [String.length]. lia.
  - rewrite replace_cons, Hprefix. cbn [String.length].
    destruct IH as [IH|IH]; [left|right]; lia.
Qed.

End ValidationMore.

(** X11: the EVM check of [validateWalletProvider]. Every provider with an
    RPC URL whose private key is 64 hexadecimal digits, with or without a
    leading [0x], is accepted; and every accepted provider has an RPC URL
    and a private key of 64 or of 66 characters. *)
Theorem validateWalletProvider_evm_keys (provider : WalletProvider) :
  type provider = evm ->
  (JsString.truthy (rpcUrl provider) = true ->
   Spec.evm_key (privateKey provider) = true ->
   WalletManager.validateWalletProvider provider = true)
  /\ (WalletManager.validateWalletProvider provider = true ->
      JsString.truthy (rpcUrl provider) = true
      /\ (String.length (privateKey provider) = 64%nat
          \/ String.length (privateKey provider) = 66%nat)).
Proof.
  intros Htype. split.
  - by apply validateWalletProvider_evm_complete.
  - rewrite validateWalletProvider_evm by done. cbv zeta. intros H.
    apply andb_prop in H as [H Hkey]. apply andb_prop in H as [_ Hrpc].
    apply andb_prop in Hkey as [Hlen _]. apply Nat.eqb_eq in Hlen.
    split; [done|].
    destruct (replace_0x_length (privateKey provider)); [left|right]; lia.
Qed.

Lemma validateWalletProvider_evm_keys_witness :
  let provider :=
    {| type := evm;
       privateKey :=
         "0x4646464646464646464646464646464646464646464646464646464646464646";
       rpcUrl := "https://rpc.example"; crossmintApiKey := None;
       address := None; chainId := None |} in
  WalletManager.validateWalletProvider provider = true
  /\ String.length (privateKey TestRuntime.provider_inner_0x) = 66%nat.
Proof.
  intros provider. split.
  - apply (proj1 (validateWalletProvider_evm_keys provider eq_refl));
      vm_compute; reflexivity.
  - destruct (proj2 (validateWalletProvider_evm_keys
                       TestRuntime.provider_inner_0x eq_refl))
      as [_ [H|H]]; [vm_compute; reflexivity|vm_compute in H; discriminate|].
    exact H.
Defined.

(** ** The registry over many calls *)

(** X14: [getWallet] against [hasWallet]. When [hasWallet] is false,
    [getWallet] returns null and changes nothing, not even the log. With
    the [crypto] module of Node it returns null also when [hasWallet] is
    true: the stored private key does not decrypt, the failure is logged,
    and the registry, [lastUsed] included, is as it was. So [getWallet]
    returns no provider, in any state of the registry. *)
Theorem getWallet_returns_null
    {R : Runtime} {N : NodeCrypto R} (user : string) (w : World) :
  (WalletManager.getWallet user w).1 = Ok None
  /\ wallets (WalletManager.getWallet user w).2 = wallets w
  /\ (WalletManager.hasWallet user (wallets w) = false ->
      WalletManager.getWallet user w = (Ok None, w))
  /\ (WalletManager.hasWallet user (wallets w) = true ->
      In (mkLog error ("Failed to get wallet for user " ++ user ++ ":")
                (Some (mkError "Failed to decrypt data")))
         (logs (WalletManager.getWallet user w).2)).
Proof.
  destruct (getWallet_null user w) as (w' & Hget & Hw').
  split; [by rewrite Hget|]. split; [by rewrite Hget|].
  unfold WalletManager.hasWallet. split.
  - intros Hnone. rewrite getWallet_unfold.
    destruct (wallets w !! user) as [userWallet|]; [|done].
    by rewrite Hnone.
  - intros Hactive.
    destruct (wallets w !! user) as [userWallet|] eqn:Hstored; [|done].
    destruct (decrypt_value_throws
                (stored_privateKey (walletProvider userWallet)) w)
      as [cause Hthrow].
    destruct (getWallet_decrypt_throws user w userWallet
                (mkError "Failed to decrypt data") Hstored Hactive)
      as [cause' ->]; [left; by rewrite Hthrow|].
    cbn [snd logs]. apply in_or_app. right. by left.
Qed.

Lemma getWallet_returns_null_witness :
  WalletManager.hasWallet "u" (wallets TestRuntime.corrupt_world) = true
  /\ (WalletManager.getWallet "u" TestRuntime.corrupt_world).1 = Ok None
  /\ wallets (WalletManager.getWallet "u" TestRuntime.corrupt_world).2
     = wallets TestRuntime.corrupt_world
  /\ In (mkLog error "Failed to get wallet for user u:"
               (Some (mkError "Failed to decrypt data")))
        (logs (WalletManager.getWallet "u" TestRuntime.corrupt_world).2)
  /\ WalletManager.getWallet "nobody" TestRuntime.corrupt_world
     = (Ok None, TestRuntime.corrupt_world).
Proof.
  destruct (@getWallet_returns_null TestRuntime.runtime TestRuntime_node
              "u" TestRuntime.corrupt_world) as (H1 & H2 & _ & H3).
  destruct (@getWallet_returns_null TestRuntime.runtime TestRuntime_node
              "nobody" TestRuntime.corrupt_world) as (_ & _ & H4 & _).
  split; [vm_compute; reflexivity|]. split; [exact H1|]. split; [exact H2|].
  split; [apply H3; vm_compute; reflexivity|].
  apply H4. vm_compute; reflexivity.
Defined.

(** X16: users are isolated, and nothing is ever deleted. A call about one
    user leaves the record of every other user exactly as it was; and a
    user who has a record before a call has one after it. *)
Theorem calls_touch_one_record
    {R : Runtime} (w : World) (call : Call) (other : string) :
  (subject call <> other ->
   wallets (after w call) !! other = wallets w !! other)
  /\ (is_Some (wallets w !! other) ->
      is_Some (wallets (after w call) !! other)).
Proof.
  destruct (after_wallets w call) as [->|[x ->]]; [done|]. split.
  - intros Hne. by rewrite lookup_insert_ne.
  - intros Hsome. destruct (decide (subject call = other)) as [->|Hne].
    + rewrite lookup_insert_eq. by eexists.
    + by rewrite lookup_insert_ne.
Qed.

Lemma calls_touch_one_record_witness :
  let w := TestRuntime.corrupt_world in
  wallets (after w (CallRegister "v" TestRuntime.provider0)) !! "u"
  = wallets w !! "u"
  /\ wallets (after w (CallUpdate "v" TestRuntime.empty_key_update)) !! "u"
     = wallets w !! "u"
  /\ is_Some (wallets (after w (CallRemove "u")) !! "u")
  /\ is_Some (wallets (after w (CallUpdate "u" TestRuntime.empty_key_update))
              !! "u").
Proof.
  intros w.
  assert (is_Some (wallets w !! "u")) as Hsome
    by (exists TestRuntime.record_u; apply lookup_insert_eq).
  split; [|split; [|split]].
  - apply (proj1 (calls_touch_one_record w
                    (CallRegister "v" TestRuntime.provider0) "u")).
    discriminate.
  - apply (proj1 (calls_touch_one_record w
                    (CallUpdate "v" TestRuntime.empty_key_update) "u")).
    discriminate.
  - apply (proj2 (calls_touch_one_record w (CallRemove "u") "u")), Hsome.
  - apply (proj2 (calls_touch_one_record w
                    (CallUpdate "u" TestRuntime.empty_key_update) "u")), Hsome.
Defined.

(** X17: only [registerWallet] gives a user a wallet. While [hasWallet] is
    false for a user, [updateWallet] for that user returns false and changes
    nothing, and after any call other than a [registerWallet] for that user,
    by anyone and with any arguments, [hasWallet] is still false. *)
Theorem only_registerWallet_activates
    {R : Runtime} (user : string) (w : World) :
  WalletManager.hasWallet user (wallets w) = false ->
  (forall updates, WalletManager.updateWallet user updates w = (Ok false, w))
  /\ (forall call,
        (forall provider, call <> CallRegister user provider) ->
        WalletManager.hasWallet user (wallets (after w call)) = false).
Proof.
  intros Hnone. split.
  - intros updates. rewrite updateWallet_unfold.
    unfold WalletManager.hasWallet in Hnone.
    destruct (wallets w !! user) as [userWallet|]; [|done].
    by rewrite Hnone.
  - intros call Hcall. by apply after_hasWallet.
Qed.

Lemma only_registerWallet_activates_witness :
  let w := (WalletManager.removeWallet "u" TestRuntime.corrupt_world).2 in
  is_Some (wallets w !! "u")
  /\ WalletManager.updateWallet "u" TestRuntime.empty_key_update w
     = (Ok false, w)
  /\ WalletManager.hasWallet "u"
       (wallets (after w (CallUpdate "u" TestRuntime.empty_key_update)))
     = false
  /\ WalletManager.hasWallet "u" (wallets (after w (CallGet "u"))) = false.
Proof.
  intros w.
  assert (WalletManager.hasWallet "u" (wallets w) = false) as Hnone
    by (vm_compute; reflexivity).
  destruct (only_registerWallet_activates "u" w Hnone) as [Hupdate Hafter].
  split; [vm_compute; eauto|].
  split; [apply Hupdate|]. split; apply Hafter; discriminate.
Defined.

Section StatsFacts.
Context {R : Runtime}.
Import SecurityManager WalletManager WalletStats.

(** A call adds at most one record, and only a successful [registerWallet]
    of a user without a record adds one. *)
Lemma after_size (w : World) (call : Call) :
  size (wallets (after w call)) = size (wallets w)
  \/ (size (wallets (after w call)) = S (size (wallets w))
      /\ wallets w !! subject call = None
      /\ exists provider,
           call = CallRegister (subject call) provider
           /\ (registerWallet (subject call) provider w).1 = Ok true).
Proof.
  destruct call as [user provider|user|user|user updates]; cbn [after subject].
  - pose proof (registerWallet_unfold user provider w) as Hreg.
    pose proof (registerWallet_record_wallets user provider w) as Hkeep.
    destruct (registerWallet_record user provider w) as [[userWallet|e] w1];
      cbn in Hkeep.
    + cbv zeta in Hreg. destruct (goatInitializeTools _) as [entries result].
      rewrite Hreg. cbn [fst snd wallets]. rewrite Hkeep, map_size_insert.
      destruct (wallets w !! user) eqn:Hstored; [by left|].
      right. split; [reflexivity|]. split; [reflexivity|].
      exists provider. by rewrite Hreg.
    + left. rewrite Hreg. cbn [snd wallets]. by rewrite Hkeep.
  - left. destruct (getWallet_cases user w)
      as [(w' & -> & Hw')|(userWallet & pk & ck & Hs & _ & _ & ->)].
    + cbn [snd]. by rewrite Hw'.
    + cbn [snd wallets]. by rewrite map_size_insert, Hs.
  - left. destruct (wallets w !! user) as [userWallet|] eqn:Hstored.
    + rewrite (removeWallet_stored _ _ _ Hstored). cbn [snd wallets].
      by rewrite map_size_insert, Hstored.
    + by rewrite (removeWallet_missing _ _ Hstored).
  - left. destruct (updateWallet_cases user updates w)
      as [(r & w' & -> & Hw' & _)
         |(userWallet & key & apiKey & w' & Hs & _ & -> & Hw')].
    + cbn [snd]. by rewrite Hw'.
    + cbn [snd]. by rewrite Hw', map_size_insert, Hs.
Qed.

End StatsFacts.

(** X18: the counts of [getStats]. The active wallets are never more than
    the total; no call makes the total smaller; and the total grows, by
    one, only in a [registerWallet] that returns true for a user who had
    no record. *)
Theorem getStats_counts {R : Runtime} (w : World) (call : Call) :
  let before := WalletStats.getStats (wallets w) in
  let later := WalletStats.getStats (wallets (after w call)) in
  (WalletStats.activeWallets before <= WalletStats.totalWallets before)%nat
  /\ (WalletStats.totalWallets later = WalletStats.totalWallets before
      \/ (WalletStats.totalWallets later
          = S (WalletStats.totalWallets before)
          /\ wallets w !! subject call = None
          /\ exists provider,
               call = CallRegister (subject call) provider
               /\ (WalletManager.registerWallet (subject call) provider w).1
                  = Ok true)).
Proof.
  cbn [WalletStats.getStats WalletStats.totalWallets
       WalletStats.activeWallets]. split.
  - etrans; [apply length_filter|].
    by rewrite length_map, length_map_to_list.
  - apply after_size.
Qed.

Example getStats_example :
  let w := fold_left after
             [CallRemove "u"; CallRemove "u"; CallRemove "w";
              CallRegister "v" TestRuntime.provider0]
             (@mkWorld TestRuntime.runtime 7%nat []
                (<["v" := TestRuntime.record_u]>
                   {[ "u" := TestRuntime.record_u ]})) in
  WalletStats.getStats (wallets w)
  = {| WalletStats.totalWallets := 2; WalletStats.activeWallets := 1 |}.
Proof. vm_compute. reflexivity. Qed.

(** X19: [updateWallet] with no secret to encrypt. For a user with an
    active record and an update whose private key and Crossmint key are
    absent, [undefined] or the empty string, [updateWallet] returns true
    and replaces the stored provider by the spread of the update over it;
    [isActive] and the two dates stay, and the only other effect is one log
    line. A secret that the update lacks stays as it is stored. A secret
    that the update carries with the value [undefined] is erased: after
    [{ crossmintApiKey: undefined }] the record has no Crossmint key, and
    after [{ privateKey: undefined }] it has no private key. *)
Theorem updateWallet_without_secret
    {R : Runtime} (user : string) (updates : WalletUpdates)
    (w : World) (userWallet : UserWallet) :
  wallets w !! user = Some userWallet ->
  isActive userWallet = true ->
  truthy_secret (new_privateKey updates) = false ->
  truthy_secret (new_crossmintApiKey updates) = false ->
  let merged := WalletManager.merge (walletProvider userWallet) updates in
  WalletManager.updateWallet user updates w
  = (Ok true,
     mkWorld (env w)
       (logs w ++ [mkLog info ("Wallet updated for user " ++ user) None])
       (<[user := {| userId := userId userWallet;
                     walletProvider := merged;
                     isActive := true;
                     createdAt := createdAt userWallet;
                     lastUsed := lastUsed userWallet |}]> (wallets w)))
  /\ (new_privateKey updates = Absent ->
      stored_privateKey merged
      = stored_privateKey (walletProvider userWallet))
  /\ (new_crossmintApiKey updates = Absent ->
      stored_crossmintApiKey merged
      = stored_crossmintApiKey (walletProvider userWallet))
  /\ (new_privateKey updates = Present None ->
      stored_privateKey merged = None)
  /\ (new_crossmintApiKey updates = Present None ->
      stored_crossmintApiKey merged = None).
Proof.
  intros Hstored Hactive Hkey Hapi merged. subst merged. split.
  - rewrite updateWallet_unfold, Hstored, Hactive.
    unfold try_catch, updateWallet_active.
    rewrite (bind_ok _ _ _ _ _ (seal_update_falsy _ w Hkey)).
    rewrite (bind_ok _ _ _ _ _ (seal_update_falsy _ w Hapi)).
    unfold bind, ret, put_wallets, logger_info, log. cbn.
    rewrite Hactive. by destruct updates.
  - unfold WalletManager.merge. cbn.
    repeat split; by intros ->.
Qed.

Lemma updateWallet_without_secret_witness :
  let record :=
    {| userId := "u";
       walletProvider :=
         {| stored_type := Some evm;
            stored_privateKey := Some TestRuntime.tampered;
            stored_rpcUrl := Some "https://rpc.example";
            stored_crossmintApiKey := Some TestRuntime.tampered;
            stored_address := None; stored_chainId := Some 1 |};
       isActive := true; createdAt := 1; lastUsed := 2 |} in
  let w := @mkWorld TestRuntime.runtime 7%nat [] {[ "u" := record ]} in
  let rpc_only :=
    {| new_type := Absent; new_privateKey := Absent;
       new_rpcUrl := Present (Some "https://other.example");
       new_crossmintApiKey := Absent; new_address := Absent;
       new_chainId := Absent |} in
  let erase :=
    {| new_type := Absent; new_privateKey := Present None;
       new_rpcUrl := Absent; new_crossmintApiKey := Present None;
       new_address := Absent; new_chainId := Absent |} in
  ((WalletManager.updateWallet "u" rpc_only w).1 = Ok true
   /\ wallets (WalletManager.updateWallet "u" rpc_only w).2 !! "u"
      = Some {| userId := "u";
                walletProvider :=
                  {| stored_type := Some evm;
                     stored_privateKey := Some TestRuntime.tampered;
                     stored_rpcUrl := Some "https://other.example";
                     stored_crossmintApiKey := Some TestRuntime.tampered;
                     stored_address := None; stored_chainId := Some 1 |};
                isActive := true; createdAt := 1; lastUsed := 2 |})
  /\ ((WalletManager.updateWallet "u" erase w).1 = Ok true
      /\ wallets (WalletManager.updateWallet "u" erase w).2 !! "u"
         = Some {| userId := "u";
                   walletProvider :=
                     {| stored_type := Some evm;
                        stored_privateKey := None;
                        stored_rpcUrl := Some "https://rpc.example";
                        stored_crossmintApiKey := None;
                        stored_address := None; stored_chainId := Some 1 |};
                   isActive := true; createdAt := 1; lastUsed := 2 |}).
Proof.
  intros record w rpc_only erase.
  assert (wallets w !! "u" = Some record) as Hstored by apply lookup_insert_eq.
  destruct (updateWallet_without_secret "u" rpc_only w record
              Hstored eq_refl eq_refl eq_refl) as [Heq _].
  destruct (updateWallet_without_secret "u" erase w record
              Hstored eq_refl eq_refl eq_refl) as [Heq' _].
  rewrite Heq, Heq'. cbn [fst snd wallets].
  rewrite !lookup_insert_eq. by repeat split.
Defined.

(** X20: changing a secret. With the [crypto] module of Node, an update
    that carries a private key or a Crossmint key other than the empty
    string is not applied: [updateWallet] returns false and the registry is
    as it was, the other properties of the update being dropped with the
    secret. *)
Theorem updateWallet_secret_fails
    {R : Runtime} {N : NodeCrypto R} (user : string)
    (updates : WalletUpdates) (w : World) :
  truthy_secret (new_privateKey updates) = true
  \/ truthy_secret (new_crossmintApiKey updates) = true ->
  (WalletManager.updateWallet user updates w).1 = Ok false
  /\ wallets (WalletManager.updateWallet user updates w).2 = wallets w.
Proof.
  intros Hsecret.
  destruct (updateWallet_secret user updates w Hsecret) as (w' & -> & Hw').
  by split.
Qed.

Lemma updateWallet_secret_fails_witness :
  let updates :=
    {| new_type := Absent; new_privateKey := Present (Some "new-key");
       new_rpcUrl := Present (Some "https://other.example");
       new_crossmintApiKey := Absent; new_address := Absent;
       new_chainId := Absent |} in
  WalletManager.hasWallet "u" (wallets TestRuntime.corrupt_world) = true
  /\ (WalletManager.updateWallet "u" updates TestRuntime.corrupt_world).1
     = Ok false
  /\ wallets (WalletManager.updateWallet "u" updates
                TestRuntime.corrupt_world).2 !! "u"
     = Some TestRuntime.record_u.
Proof.
  intros updates.
  destruct (@updateWallet_secret_fails TestRuntime.runtime TestRuntime_node
              "u" updates TestRuntime.corrupt_world (or_introl eq_refl))
    as [H1 H2].
  split; [vm_compute; reflexivity|]. split; [exact H1|].
  rewrite H2. apply lookup_insert_eq.
Defined.

(** ** The wallet configuration commands *)

Section CommandFacts.
Context {R : Runtime}.
Import WalletManager CommandManager.

(** [registerWallet] never throws, and changes the registry only when it
    returns true. *)
Lemma registerWallet_total user provider w :
  exists r w', registerWallet user provider w = (Ok r, w')
               /\ (r = false -> wallets w' = wallets w).
Proof.
  rewrite registerWallet_unfold.
  pose proof (registerWallet_record_wallets user provider w) as Hkeep.
  destruct (registerWallet_record user provider w) as [[userWallet|e] w1];
    cbn in Hkeep.
  - cbv zeta. destruct (goatInitializeTools _) as [entries result].
    by eexists true, _.
  - eexists false, _. split; [reflexivity|]. by intros _.
Qed.

(** [updateWallet] never throws. *)
Lemma updateWallet_total user updates w :
  exists r w', updateWallet user updates w = (Ok r, w').
Proof.
  destruct (updateWallet_cases user updates w)
    as [(r & w' & Heq & _)|(uw & key & apiKey & w' & _ & _ & Heq & _)];
    rewrite Heq; by eexists _, _.
Qed.

Lemma createWalletFromTempData_complete user (b : Bot) data :
  tempWalletData b !! user = Some data ->
  JsString.truthy_opt (temp_privateKey data) = true ->
  JsString.truthy_opt (temp_rpcUrl data) = true ->
  createWalletFromTempData user b
  = (Ok tt,
     mkBot (delete user (tempWalletData b)) (replies b)
       (registerWallet user
          {| type := evm;
             privateKey := default EmptyString (temp_privateKey data);
             rpcUrl := default EmptyString (temp_rpcUrl data);
             crossmintApiKey := temp_crossmintApiKey data;
             address := None; chainId := None |} (world b)).2).
Proof.
  intros Hdata Hkey Hrpc.
  unfold createWalletFromTempData, bot_bind, get_temp. rewrite Hdata.
  cbn [mbind option_bind]. rewrite Hkey, Hrpc. cbn [negb orb].
  unfold in_world, delete_temp.
  destruct (registerWallet_total user
              {| type := evm;
                 privateKey := default EmptyString (temp_privateKey data);
                 rpcUrl := default EmptyString (temp_rpcUrl data);
                 crossmintApiKey := temp_crossmintApiKey data;
                 address := None; chainId := None |} (world b))
    as (r & w' & Heq & _).
  by rewrite Heq.
Qed.

Lemma handleSetRpcUrl_complete reply rpcUrl user (b : Bot) data :
  tempWalletData b !! user = Some data ->
  JsString.truthy_opt (temp_privateKey data) = true ->
  JsString.truthy rpcUrl = true ->
  reply rpc_saved_ready = Ok tt ->
  handleSetRpcUrl reply rpcUrl user b
  = (Ok tt,
     mkBot (delete user (tempWalletData b)) (replies b ++ [rpc_saved_ready])
       (registerWallet user
          {| type := evm;
             privateKey := default EmptyString (temp_privateKey data);
             rpcUrl := rpcUrl;
             crossmintApiKey := temp_crossmintApiKey data;
             address := None; chainId := None |} (world b)).2).
Proof.
  intros Hdata Hkey Hrpc Hreply.
  unfold handleSetRpcUrl, bot_try. unfold bot_bind at 1. unfold get_temp.
  rewrite Hdata. cbn [existing_or_empty default from_option id].
  unfold bot_bind at 1. unfold set_temp. cbv zeta. rewrite Hkey.
  unfold bot_bind at 1.
  erewrite createWalletFromTempData_complete;
    [|apply lookup_insert_eq|exact Hkey|exact Hrpc].
  unfold send. rewrite Hreply.
  cbn [tempWalletData replies world temp_privateKey temp_rpcUrl
       temp_crossmintApiKey default from_option id].
  by rewrite delete_insert_eq.
Qed.

Lemma handleSetRpcUrl_first reply rpcUrl user (b : Bot) :
  tempWalletData b !! user = None ->
  reply rpc_saved_next = Ok tt ->
  handleSetRpcUrl reply rpcUrl user b
  = (Ok tt,
     mkBot (<[user := mkTemp None (Some rpcUrl) None]> (tempWalletData b))
       (replies b ++ [rpc_saved_next]) (world b)).
Proof.
  intros Hdata Hreply.
  unfold handleSetRpcUrl, bot_try, bot_bind, get_temp, set_temp, bot_ret, send.
  rewrite Hdata. cbn. by rewrite Hreply.
Qed.

Lemma handleSetPrivateKey_saved reply privateKey user (b : Bot) :
  reply key_saved = Ok tt ->
  handleSetPrivateKey reply privateKey user b
  = (Ok tt,
     mkBot (<[user := {| temp_privateKey := Some privateKey;
                         temp_rpcUrl :=
                           temp_rpcUrl
                             (existing_or_empty (tempWalletData b !! user));
                         temp_crossmintApiKey :=
                           temp_crossmintApiKey
                             (existing_or_empty (tempWalletData b !! user)) |}]>
              (tempWalletData b))
       (replies b ++ [key_saved]) (world b)).
Proof.
  intros Hreply.
  unfold handleSetPrivateKey, bot_try, bot_bind, get_temp, set_temp, send.
  cbn. by rewrite Hreply.
Qed.

Lemma handleSetCrossmintKey_saved reply apiKey user (b : Bot) :
  reply crossmint_saved = Ok tt ->
  handleSetCrossmintKey reply apiKey user b
  = (Ok tt,
     mkBot (<[user := {| temp_privateKey :=
                           temp_privateKey
                             (existing_or_empty (tempWalletData b !! user));
                         temp_rpcUrl :=
                           temp_rpcUrl
                             (existing_or_empty (tempWalletData b !! user));
                         temp_crossmintApiKey := Some apiKey |}]>
              (tempWalletData b))
       (replies b ++ [crossmint_saved])
       (if hasWallet user (wallets (world b))
        then (updateWallet user
                {| new_type := Absent; new_privateKey := Absent;
                   new_rpcUrl := Absent;
                   new_crossmintApiKey := Present (Some apiKey);
                   new_address := Absent; new_chainId := Absent |} (world b)).2
        else world b)).
Proof.
  intros Hreply.
  unfold handleSetCrossmintKey, bot_try. unfold bot_bind at 1.
  unfold get_temp. unfold bot_bind at 1. unfold set_temp.
  unfold bot_bind at 1. unfold has_wallet. cbn [world].
  destruct (hasWallet user (wallets (world b))).
  - unfold bot_bind, in_world, bot_ret, send. cbn [world tempWalletData replies].
    destruct (updateWallet_total user
                {| new_type := Absent; new_privateKey := Absent;
                   new_rpcUrl := Absent;
                   new_crossmintApiKey := Present (Some apiKey);
                   new_address := Absent; new_chainId := Absent |} (world b))
      as (r & w' & ->).
    by rewrite Hreply.
  - unfold bot_bind, bot_ret, send. cbn [world tempWalletData replies].
    by rewrite Hreply.
Qed.

End CommandFacts.

(** X21: [/set-rpc-url] for a user whose temporary data holds a private
    key. With a non-empty URL and a reply that goes through, the handler
    calls [registerWallet] with an [evm] provider made of the stored key,
    the URL and the stored Crossmint key, deletes the temporary data of the
    user, and replies that the wallet is ready: whatever [registerWallet]
    returned. When it returned false, the registry is what it was. *)
Theorem handleSetRpcUrl_creates_wallet
    {R : Runtime} (reply : string -> outcome unit) (rpcUrl user : string)
    (b : CommandManager.Bot) (data : CommandManager.TempWalletData) :
  CommandManager.tempWalletData b !! user = Some data ->
  JsString.truthy_opt (CommandManager.temp_privateKey data) = true ->
  JsString.truthy rpcUrl = true ->
  reply CommandManager.rpc_saved_ready = Ok tt ->
  let provider :=
    {| type := evm;
       privateKey :=
         default EmptyString (CommandManager.temp_privateKey data);
       rpcUrl := rpcUrl;
       crossmintApiKey := CommandManager.temp_crossmintApiKey data;
       address := None; chainId := None |} in
  let registered := WalletManager.registerWallet user provider
                      (CommandManager.world b) in
  CommandManager.handleSetRpcUrl reply rpcUrl user b
  = (Ok tt,
     CommandManager.mkBot
       (delete user (CommandManager.tempWalletData b))
       (CommandManager.replies b ++ [CommandManager.rpc_saved_ready])
       registered.2)
  /\ (registered.1 = Ok false ->
      wallets registered.2 = wallets (CommandManager.world b)).
Proof.
  intros Hdata Hkey Hrpc Hreply provider registered. split.
  - by apply handleSetRpcUrl_complete.
  - subst registered.
    destruct (registerWallet_total user provider (CommandManager.world b))
      as (r & w' & -> & Hfalse).
    cbn [fst snd]. intros [= ->]. by apply Hfalse.
Qed.

Lemma handleSetRpcUrl_creates_wallet_witness :
  let reply := fun _ : string => Ok tt in
  let bot key :=
    CommandManager.mkBot
      {[ "u" := CommandManager.mkTemp (Some key) None None ]} []
      TestRuntime.world0 in
  let good := CommandManager.handleSetRpcUrl reply "https://rpc.example" "u"
                (bot (privateKey TestRuntime.provider0)) in
  let bad := CommandManager.handleSetRpcUrl reply "https://rpc.example" "u"
               (bot "not-a-key") in
  (CommandManager.replies good.2 = [CommandManager.rpc_saved_ready]
   /\ CommandManager.tempWalletData good.2 !! "u" = None
   /\ WalletManager.hasWallet "u" (wallets (CommandManager.world good.2))
      = false)
  /\ (CommandManager.replies bad.2 = [CommandManager.rpc_saved_ready]
      /\ CommandManager.tempWalletData bad.2 !! "u" = None
      /\ WalletManager.hasWallet "u" (wallets (CommandManager.world bad.2))
         = false).
Proof.
  intros reply bot good bad. split.
  - destruct (handleSetRpcUrl_creates_wallet reply "https://rpc.example" "u"
                (bot (privateKey TestRuntime.provider0))
                (CommandManager.mkTemp
                   (Some (privateKey TestRuntime.provider0)) None None)
                eq_refl eq_refl eq_refl eq_refl) as [Heq Hfalse].
    unfold good. rewrite Heq.
    cbn [snd CommandManager.replies CommandManager.tempWalletData
         CommandManager.world].
    split; [reflexivity|]. split; [apply lookup_delete_eq|].
    rewrite Hfalse; [reflexivity|]. vm_compute; reflexivity.
  - destruct (handleSetRpcUrl_creates_wallet reply "https://rpc.example" "u"
                (bot "not-a-key")
                (CommandManager.mkTemp (Some "not-a-key") None None)
                eq_refl eq_refl eq_refl eq_refl) as [Heq Hfalse].
    unfold bad. rewrite Heq.
    cbn [snd CommandManager.replies CommandManager.tempWalletData
         CommandManager.world].
    split; [reflexivity|]. split; [apply lookup_delete_eq|].
    rewrite Hfalse; [reflexivity|]. vm_compute; reflexivity.
Defined.

(** X22: the order of the two commands matters. For a user with no
    temporary data and replies that go through: [/set-rpc-url] followed by
    [/set-private-key] registers nothing, leaves the services untouched and
    keeps the private key, in clear, in the temporary data, the last reply
    asking for the RPC URL again; [/set-private-key] followed by
    [/set-rpc-url] calls [registerWallet] and deletes the temporary data. *)
Theorem wallet_setup_order
    {R : Runtime} (reply : string -> outcome unit) (key rpcUrl user : string)
    (b : CommandManager.Bot) :
  CommandManager.tempWalletData b !! user = None ->
  JsString.truthy key = true ->
  JsString.truthy rpcUrl = true ->
  reply CommandManager.rpc_saved_next = Ok tt ->
  reply CommandManager.key_saved = Ok tt ->
  reply CommandManager.rpc_saved_ready = Ok tt ->
  CommandManager.bot_bind
     (CommandManager.handleSetRpcUrl reply rpcUrl user)
     (fun _ => CommandManager.handleSetPrivateKey reply key user) b
  = (Ok tt,
     CommandManager.mkBot
       (<[user := CommandManager.mkTemp (Some key) (Some rpcUrl) None]>
          (CommandManager.tempWalletData b))
       (CommandManager.replies b
        ++ [CommandManager.rpc_saved_next; CommandManager.key_saved])
       (CommandManager.world b))
  /\ CommandManager.bot_bind
        (CommandManager.handleSetPrivateKey reply key user)
        (fun _ => CommandManager.handleSetRpcUrl reply rpcUrl user) b
     = (Ok tt,
        CommandManager.mkBot
          (delete user (CommandManager.tempWalletData b))
          (CommandManager.replies b
           ++ [CommandManager.key_saved; CommandManager.rpc_saved_ready])
          (WalletManager.registerWallet user
             {| type := evm; privateKey := key; rpcUrl := rpcUrl;
                crossmintApiKey := None; address := None; chainId := None |}
             (CommandManager.world b)).2).
Proof.
  intros Hnone Hkey Hrpc Hnext Hsaved Hready. split.
  - unfold CommandManager.bot_bind at 1.
    rewrite handleSetRpcUrl_first by done.
    rewrite handleSetPrivateKey_saved by done.
    cbn [CommandManager.tempWalletData CommandManager.replies
         CommandManager.world].
    rewrite lookup_insert_eq, insert_insert_eq, <-app_assoc. reflexivity.
  - unfold CommandManager.bot_bind at 1.
    rewrite handleSetPrivateKey_saved by done. rewrite Hnone.
    erewrite handleSetRpcUrl_complete;
      [|apply lookup_insert_eq|exact Hkey|exact Hrpc|exact Hready].
    cbn [CommandManager.tempWalletData CommandManager.replies
         CommandManager.world CommandManager.existing_or_empty
         CommandManager.temp_privateKey CommandManager.temp_crossmintApiKey
         default from_option id].
    by rewrite delete_insert_eq, <-app_assoc.
Qed.

Lemma wallet_setup_order_witness :
  let reply := fun _ : string => Ok tt in
  let b := CommandManager.mkBot ∅ [] TestRuntime.world0 in
  let key := privateKey TestRuntime.provider0 in
  let rpc_first :=
    CommandManager.bot_bind
       (CommandManager.handleSetRpcUrl reply "https://rpc.example" "u")
       (fun _ => CommandManager.handleSetPrivateKey reply key "u") b in
  let key_first :=
    CommandManager.bot_bind
       (CommandManager.handleSetPrivateKey reply key "u")
       (fun _ => CommandManager.handleSetRpcUrl reply "https://rpc.example" "u") b in
  (CommandManager.replies rpc_first.2
   = [CommandManager.rpc_saved_next; CommandManager.key_saved]
   /\ CommandManager.world rpc_first.2 = TestRuntime.world0
   /\ CommandManager.tempWalletData rpc_first.2 !! "u"
      = Some (CommandManager.mkTemp (Some key) (Some "https://rpc.example")
                None))
  /\ (CommandManager.replies key_first.2
      = [CommandManager.key_saved; CommandManager.rpc_saved_ready]
      /\ CommandManager.tempWalletData key_first.2 !! "u" = None).
Proof.
  intros reply b key rpc_first key_first.
  destruct (wallet_setup_order reply key "https://rpc.example" "u" b
              eq_refl eq_refl eq_refl eq_refl eq_refl eq_refl)
    as [Hrpc_first Hkey_first].
  split.
  - unfold rpc_first. rewrite Hrpc_first.
    cbn [snd CommandManager.tempWalletData CommandManager.world
         CommandManager.replies].
    split; [reflexivity|]. split; [reflexivity|apply lookup_insert_eq].
  - unfold key_first. rewrite Hkey_first.
    cbn [snd CommandManager.tempWalletData CommandManager.world
         CommandManager.replies].
    split; [reflexivity|apply lookup_delete_eq].
Defined.

(** X23: [/set-crossmint-key]. When the reply goes through, the handler
    keeps the API key, in clear, in the temporary data of the user, calls
    [updateWallet] with that key exactly when the user has a wallet, and
    replies that the key is saved whatever [updateWallet] returned. *)
Theorem handleSetCrossmintKey_keeps_key
    {R : Runtime} (reply : string -> outcome unit) (apiKey user : string)
    (b : CommandManager.Bot) :
  reply CommandManager.crossmint_saved = Ok tt ->
  let result := CommandManager.handleSetCrossmintKey reply apiKey user b in
  result.1 = Ok tt
  /\ CommandManager.replies result.2
     = (CommandManager.replies b ++ [CommandManager.crossmint_saved])%list
  /\ (exists data,
        CommandManager.tempWalletData result.2 !! user = Some data
        /\ CommandManager.temp_crossmintApiKey data = Some apiKey)
  /\ CommandManager.world result.2
     = (if WalletManager.hasWallet user (wallets (CommandManager.world b))
        then (WalletManager.updateWallet user
                {| new_type := Absent; new_privateKey := Absent;
                   new_rpcUrl := Absent;
                   new_crossmintApiKey := Present (Some apiKey);
                   new_address := Absent; new_chainId := Absent |}
                (CommandManager.world b)).2
        else CommandManager.world b).
Proof.
  intros Hreply result. subst result.
  rewrite handleSetCrossmintKey_saved by done.
  cbn [fst snd CommandManager.replies CommandManager.tempWalletData
       CommandManager.world].
  repeat split. eexists. by rewrite lookup_insert_eq.
Qed.

Lemma handleSetCrossmintKey_keeps_key_witness :
  let reply := fun _ : string => Ok tt in
  let result :=
    CommandManager.handleSetCrossmintKey reply "sk_live" "u"
      (CommandManager.mkBot ∅ [] TestRuntime.corrupt_world) in
  let other :=
    CommandManager.handleSetCrossmintKey reply "sk_live" "v"
      (CommandManager.mkBot ∅ [] TestRuntime.corrupt_world) in
  CommandManager.replies result.2 = [CommandManager.crossmint_saved]
  /\ (exists data,
        CommandManager.tempWalletData result.2 !! "u" = Some data
        /\ CommandManager.temp_crossmintApiKey data = Some "sk_live")
  /\ (WalletManager.updateWallet "u"
        {| new_type := Absent; new_privateKey := Absent;
           new_rpcUrl := Absent;
           new_crossmintApiKey := Present (Some "sk_live");
           new_address := Absent; new_chainId := Absent |}
        TestRuntime.corrupt_world).1 = Ok false
  /\ wallets (CommandManager.world result.2)
     = wallets TestRuntime.corrupt_world
  /\ CommandManager.world other.2 = TestRuntime.corrupt_world.
Proof.
  intros reply result other.
  destruct (handleSetCrossmintKey_keeps_key reply "sk_live" "u"
              (CommandManager.mkBot ∅ [] TestRuntime.corrupt_world) eq_refl)
    as (_ & Hreplies & Hdata & Hworld).
  destruct (handleSetCrossmintKey_keeps_key reply "sk_live" "v"
              (CommandManager.mkBot ∅ [] TestRuntime.corrupt_world) eq_refl)
    as (_ & _ & _ & Hother).
  split; [exact Hreplies|]. split; [exact Hdata|].
  split; [vm_compute; reflexivity|].
  split; [|exact Hother].
  fold result in Hworld. rewrite Hworld. vm_compute; reflexivity.
Defined.


